(** * Authentication core of the notes backend

    A shallow embedding of [src/services/auth.py], [src/services/roles.py]
    and [src/routes/auth.py], and the properties of the token lifecycle
    (login, refresh with rotation, e-mail confirmation, the role gate).

    Conventions of the embedding:
    - a Python [dict] with string keys is a [gmap string value];
    - a raised exception is a value of [exn]; a function that may raise
      returns an [outcome];
    - a coroutine that talks to the database is a function of the [world]
      (the users table and the queue of background e-mails) returning its
      outcome together with the world it leaves behind, also when it raises:
      what was committed before the [raise] stays committed;
    - [datetime.utcnow()] is the parameter [now], in whole seconds since the
      epoch (the resolution of the timestamps a token carries). *)

From stdpp Require Import gmap strings list.
From Stdlib Require Import ZArith.

Local Open Scope Z_scope.
Local Open Scope string_scope.

(** ** Python values, exceptions and outcomes *)

(** The values found in a claims set: strings, integers (timestamps) and
    [None]. *)
Inductive value :=
| VStr (s : string)
| VInt (n : Z)
| VNone.

#[global] Instance value_eq_dec : EqDecision value.
Proof. solve_decision. Defined.

(** The three exception classes of [jose.exceptions] the code can meet;
    the last two are subclasses of [JWTError], so [except JWTError] catches
    all three. *)
Inductive jwt_failure :=
| SignatureFailed
| ExpiredSignature
| MalformedToken.

#[global] Instance jwt_failure_eq_dec : EqDecision jwt_failure.
Proof. solve_decision. Defined.

Inductive exn :=
| HTTPException (status_code : Z) (detail : string)
                (headers : list (string * string))
| JWTError (why : jwt_failure)
| KeyError (key : string)
| AttributeError (attr : string).

#[global] Instance exn_eq_dec : EqDecision exn.
Proof. solve_decision. Defined.

Inductive outcome (A : Type) :=
| Return (a : A)
| Raise (e : exn).
Arguments Return {A} a.
Arguments Raise {A} e.

(** [isinstance(e, JWTError)] *)
Definition is_JWTError (e : exn) : bool :=
  match e with JWTError _ => true | _ => false end.

(** An unhandled exception that is not an [HTTPException] reaches the
    framework as an internal failure (status 500), outside the error
    taxonomy of the service. *)
Definition internal_failure (e : exn) : bool :=
  match e with HTTPException _ _ _ => false | _ => true end.

Definition obind {A B} (o : outcome A) (k : A -> outcome B) : outcome B :=
  match o with Return a => k a | Raise e => Raise e end.

(** [try: body  except JWTError: handler] *)
Definition except_JWTError {A} (body : outcome A) (handler : outcome A)
  : outcome A :=
  match body with
  | Return a => Return a
  | Raise e => if is_JWTError e then handler else Raise e
  end.

Abbreviation dict := (gmap string value).

(** [d[k]]: a missing key raises [KeyError]. *)
Definition subscript (d : dict) (k : string) : outcome value :=
  match d !! k with
  | Some v => Return v
  | None => Raise (KeyError k)
  end.

(** ** The token codec ([jose.jwt]) *)

(** A compact signed token, seen symbolically: the algorithm of its header,
    its claims and the key its signature was made with. A string that is
    not such a serialisation is [Garbage]. Two signed tokens are the same
    string exactly when header, claims and key agree. *)
Inductive token :=
| Signed (alg : string) (claims : dict) (key : string)
| Garbage (raw : string).

#[global] Instance token_eq_dec : EqDecision token.
Proof. solve_decision. Defined.

Module jwt.

(** Modelled from the spec: the Token Codec of section 4.2 is the
    external library python-jose, whose source is not part of the
    repository. [encode] signs the claims with the secret. *)
Definition encode (claims : dict) (key : string) (algorithm : string)
  : token :=
  Signed algorithm claims key.

(** Modelled from the spec: [decode] fails when the signature does not
    verify under the given key and algorithms, fails with the expiry
    error when [exp] has passed ([exp < now]; no skew allowance, expiry is
    exact), and returns the claims otherwise. A token without an [exp]
    claim does not expire. *)
Definition decode (t : token) (key : string) (algorithms : list string)
           (now : Z) : outcome dict :=
  match t with
  | Garbage _ => Raise (JWTError MalformedToken)
  | Signed alg claims k =>
      if bool_decide (alg ∈ algorithms) && bool_decide (k = key) then
        match claims !! "exp" with
        | Some (VInt exp) =>
            if (exp <? now)%Z then Raise (JWTError ExpiredSignature)
            else Return claims
        | _ => Return claims
        end
      else Raise (JWTError SignatureFailed)
  end.

End jwt.

(** ** [src/database/models.py] *)

Module models.

(** Modelled from the spec: the [Role] enumeration of section 3
    ([user], [moderator], [admin]); its declaration is not under src/. *)
Inductive Role := admin | moderator | user.

#[global] Instance Role_eq_dec : EqDecision Role.
Proof. solve_decision. Defined.

(** Modelled from the spec: the [User] entity of section 3, with the
    columns the routes read and write. The refresh token is nullable. *)
Record User := mkUser {
  email : string;
  username : string;
  password : string;
  confirmed : bool;
  role : Role;
  refresh_token : option token
}.

(** [user.refresh_token = token] *)
Definition set_refresh_token (u : User) (t : option token) : User :=
  mkUser (email u) (username u) (password u) (confirmed u) (role u) t.

(** [user.confirmed = True] *)
Definition set_confirmed (u : User) : User :=
  mkUser (email u) (username u) (password u) true (role u) (refresh_token u).

End models.

Module schemas.

(** The response model of the login and refresh routes. *)
Record TokenModel := mkTokenModel {
  access_token : token;
  refresh_token : token;
  token_type : string
}.

(** The body of the signup request. *)
Record UserModel := mkUserModel {
  username : string;
  email : string;
  password : string
}.

End schemas.

(** What [print] was called with. *)
Inductive printed :=
| PrintRole (r : models.Role)
| PrintRoles (l : list models.Role)
| PrintExn (e : exn).

(** The state the requests share: the users table behind the database
    session, the e-mails queued as background tasks ([send_email] with the
    address, the user name and the base URL of the request) and what was
    written to standard output. *)
Record world := mkWorld {
  users : gmap string models.User;
  background_tasks : list (string * string * string);
  stdout : list printed
}.

Definition M (A : Type) : Type := world -> outcome A * world.

Definition mret {A} (a : A) : M A := fun w => (Return a, w).
Definition mraise {A} (e : exn) : M A := fun w => (Raise e, w).
Definition mbind {A B} (m : M A) (k : A -> M B) : M B :=
  fun w => match m w with
           | (Return a, w') => k a w'
           | (Raise e, w') => (Raise e, w')
           end.
Definition lift {A} (o : outcome A) : M A := fun w => (o, w).

Notation "'do' x <- m ; k" := (mbind m (fun x => k))
  (at level 10, x name, m at level 100, k at level 200,
   format "'[v' 'do'  x  <-  m ; '/' k ']'").
Notation "'do_' m ; k" := (mbind m (fun _ => k))
  (at level 10, m at level 100, k at level 200,
   format "'[v' 'do_'  m ; '/' k ']'").

Definition print (p : printed) : M unit :=
  fun w => (Return tt,
            mkWorld (users w) (background_tasks w) (stdout w ++ [p])).

(** [background_tasks.add_task(send_email, email, username, base_url)] *)
Definition add_task (task : string * string * string) : M unit :=
  fun w => (Return tt,
            mkWorld (users w) (background_tasks w ++ [task]) (stdout w)).

(** Reading the attribute [attr] of [obj], which may be [None]: the object
    the attribute is read from, or the [AttributeError] of [None.attr]. *)
Definition deref (obj : option models.User) (attr : string)
  : outcome models.User :=
  match obj with
  | Some u => Return u
  | None => Raise (AttributeError attr)
  end.

(** ** [src/repository/users.py] *)

Module repository_users.
Import models.

(** Modelled from the spec: the Session/Identity Lookup of section 2 is a
    key-value lookup of the user record by e-mail; the module is not under
    src/. No record is stored under a key that is not a string. *)
Definition get_user_by_email (email : value) : M (option User) :=
  fun w => (Return match email with
                   | VStr s => users w !! s
                   | _ => None
                   end, w).

(** Modelled from the spec: persists the single refresh token of the
    user, overwriting any prior value; [None] clears it. *)
Definition update_token (user : User) (token : option token) : M unit :=
  fun w =>
    (Return tt,
     mkWorld (<[email user := set_refresh_token user token]> (users w))
             (background_tasks w) (stdout w)).

(** Modelled from the spec: marks the user with this e-mail confirmed. *)
Definition confirmed_email (email : value) : M unit :=
  do user <- get_user_by_email email;
  match user with
  | Some u =>
      fun w =>
        (Return tt,
         mkWorld (<[models.email u := set_confirmed u]> (users w))
                 (background_tasks w) (stdout w))
  | None => mraise (AttributeError "confirmed")
  end.

(** Modelled from the spec: creates the record of a new user from the
    signup body, not yet confirmed and with no refresh token, and returns
    it. The role a new user gets is the default of the [role] column, a
    parameter here. *)
Definition create_user (default_role : Role) (body : schemas.UserModel)
  : M User :=
  fun w =>
    let new_user :=
      mkUser (schemas.email body) (schemas.username body)
             (schemas.password body) false default_role None in
    (Return new_user,
     mkWorld (<[schemas.email body := new_user]> (users w))
             (background_tasks w) (stdout w)).

End repository_users.

(** ** [src/services/auth.py] *)

Module services_auth.
Import models.

(** The class attributes of [Auth]: the password context (of which the
    flows below use [verify]), the signing secret and the algorithm, both
    read from the settings. *)
Record Auth := mkAuth {
  pwd_context_verify : string -> string -> bool;
  SECRET_KEY : string;
  ALGORITHM : string
}.

Definition credentials_exception : exn :=
  HTTPException 401 "Could not validate credentials"
                [("WWW-Authenticate", "Bearer")].

Definition verify_password (self : Auth) (plain_password hashed_password : string)
  : bool :=
  pwd_context_verify self plain_password hashed_password.

(** [if expires_delta:] is false for [None] and for zero. *)
Definition truthy_delta (expires_delta : option Z) : bool :=
  match expires_delta with
  | Some d => negb (d =? 0)%Z
  | None => false
  end.

Definition create_access_token (self : Auth) (data : dict)
           (expires_delta : option Z) (now : Z) : token :=
  let to_encode := data in
  let expire :=
    if truthy_delta expires_delta
    then (now + default 0 expires_delta)%Z
    else (now + 150 * 60)%Z in
  let to_encode :=
    <["scope" := VStr "access_token"]>
      (<["exp" := VInt expire]> (<["iat" := VInt now]> to_encode)) in
  jwt.encode to_encode (SECRET_KEY self) (ALGORITHM self).

Definition create_refresh_token (self : Auth) (data : dict)
           (expires_delta : option Z) (now : Z) : token :=
  let to_encode := data in
  let expire :=
    if truthy_delta expires_delta
    then (now + default 0 expires_delta)%Z
    else (now + 7 * 86400)%Z in
  let to_encode :=
    <["scope" := VStr "refresh_token"]>
      (<["exp" := VInt expire]> (<["iat" := VInt now]> to_encode)) in
  jwt.encode to_encode (SECRET_KEY self) (ALGORITHM self).

Definition decode_refresh_token (self : Auth) (refresh_token : token)
           (now : Z) : outcome value :=
  except_JWTError
    (obind (jwt.decode refresh_token (SECRET_KEY self) [ALGORITHM self] now)
       (fun payload =>
          obind (subscript payload "scope") (fun scope =>
            if bool_decide (scope = VStr "refresh_token") then
              obind (subscript payload "sub") (fun email => Return email)
            else
              Raise (HTTPException 401 "Invalid scope for token" []))))
    (Raise (HTTPException 401 "Could not validate credentials" [])).

Definition get_current_user (self : Auth) (token : token) (now : Z)
  : M User :=
  do email <-
    lift (except_JWTError
      (obind (jwt.decode token (SECRET_KEY self) [ALGORITHM self] now)
         (fun payload =>
            obind (subscript payload "scope") (fun scope =>
              if bool_decide (scope = VStr "access_token") then
                obind (subscript payload "sub") (fun email =>
                  if bool_decide (email = VNone)
                  then Raise credentials_exception
                  else Return email)
              else
                Raise credentials_exception)))
      (Raise credentials_exception));
  do user <- repository_users.get_user_by_email email;
  match user with
  | None => mraise credentials_exception
  | Some u => mret u
  end.

Definition create_email_token (self : Auth) (data : dict) (now : Z)
  : token :=
  let to_encode := data in
  let expire := (now + 7 * 86400)%Z in
  let to_encode := <["exp" := VInt expire]> (<["iat" := VInt now]> to_encode) in
  jwt.encode to_encode (SECRET_KEY self) (ALGORITHM self).

Definition get_email_from_token (self : Auth) (token : token) (now : Z)
  : M value :=
  match
    obind (jwt.decode token (SECRET_KEY self) [ALGORITHM self] now)
      (fun payload => subscript payload "sub")
  with
  | Return email => mret email
  | Raise e =>
      if is_JWTError e then
        do_ print (PrintExn e);
        mraise (HTTPException 422 "Invalid token for email verification" [])
      else mraise e
  end.

End services_auth.

(** ** [src/services/roles.py] *)

Module services_roles.
Import models.

Record RoleAccess := mkRoleAccess {
  allowed_roles : list Role
}.

(** [RoleAccess.__call__], given the user its dependency resolved. *)
Definition __call__ (self : RoleAccess) (user : User) : M unit :=
  do_ print (PrintRole (role user));
  do_ print (PrintRoles (allowed_roles self));
  if bool_decide (role user ∉ allowed_roles self) then
    mraise (HTTPException 403 "Operation forbidden" [])
  else mret tt.

(** The gate as the framework runs it on a request: the dependency
    [auth_service.get_current_user] first, then [__call__]. *)
Definition gate (auth_service : services_auth.Auth) (self : RoleAccess)
           (token : token) (now : Z) : M unit :=
  do user <- services_auth.get_current_user auth_service token now;
  __call__ self user.

End services_roles.

(** ** [src/routes/auth.py] *)

Module routes_auth.
Import services_auth.

Section Routes.

(** The module-level singleton [auth_service = Auth()]. *)
Variable auth_service : Auth.

(** The current time of the request and the base URL it was sent to. *)
Variable now : Z.
Variable base_url : string.

Definition login (username password : string) : M schemas.TokenModel :=
  do user <- repository_users.get_user_by_email (VStr username);
  match user with
  | None => mraise (HTTPException 401 "Invalid email" [])
  | Some user =>
      if negb (models.confirmed user) then
        mraise (HTTPException 401 "Email not confirmed" [])
      else if negb (verify_password auth_service password (models.password user)) then
        mraise (HTTPException 401 "Invalid password" [])
      else
        let access_token :=
          create_access_token auth_service {["sub" := VStr (models.email user)]} None now in
        let refresh_token :=
          create_refresh_token auth_service {["sub" := VStr (models.email user)]} None now in
        do_ repository_users.update_token user (Some refresh_token);
        mret (schemas.mkTokenModel access_token refresh_token "bearer")
  end.

Definition refresh_token (token : token) : M schemas.TokenModel :=
  do email <- lift (decode_refresh_token auth_service token now);
  do user <- repository_users.get_user_by_email email;
  do user <- lift (deref user "refresh_token");
  if bool_decide (models.refresh_token user ≠ Some token) then
    do_ repository_users.update_token user None;
    mraise (HTTPException 401 "Invalid refresh token" [])
  else
    let access_token :=
      create_access_token auth_service {["email" := email]} None now in
    let refresh_token :=
      create_refresh_token auth_service {["email" := email]} None now in
    do_ repository_users.update_token user (Some refresh_token);
    mret (schemas.mkTokenModel access_token refresh_token "bearer").

Definition confirmed_email (token : token) : M dict :=
  do email <- get_email_from_token auth_service token now;
  do user <- repository_users.get_user_by_email email;
  match user with
  | None => mraise (HTTPException 400 "Verification error" [])
  | Some user =>
      if models.confirmed user then
        mret {["message" := VStr "Your email is already confirmed"]}
      else
        do_ repository_users.confirmed_email email;
        mret {["message" := VStr "Email confirmed"]}
  end.

Definition request_email (email : string) : M dict :=
  do user <- repository_users.get_user_by_email (VStr email);
  do found <- lift (deref user "confirmed");
  if models.confirmed found then
    mret {["message" := VStr "Your email is already confirmed"]}
  else
    do_ match user with
        | Some user => add_task (models.email user, models.username user, base_url)
        | None => mret tt
        end;
    mret {["message" := VStr "Check your email for confirmation."]}.

(** [auth_service.get_password_hash], that is [pwd_context.hash]: the
    digest it yields for a password, and the default role of a new user. *)
Variable get_password_hash : string -> string.
Variable default_role : models.Role.

Definition signup (body : schemas.UserModel)
  : M (models.User * string) :=
  do exist_user <-
    repository_users.get_user_by_email (VStr (schemas.email body));
  match exist_user with
  | Some _ => mraise (HTTPException 409 "Account already exists" [])
  | None =>
      let body :=
        schemas.mkUserModel (schemas.username body) (schemas.email body)
          (get_password_hash (schemas.password body)) in
      do new_user <- repository_users.create_user default_role body;
      do_ add_task (models.email new_user, models.username new_user, base_url);
      mret (new_user,
            "User successfully created. Check your email for confirmation.")
  end.

End Routes.

End routes_auth.

(** ** [src/repository/tags.py] *)

(** The request body of the tag routes, of which the repository reads the
    name. *)
Module TagModel.
Record t := mk { name : string }.
End TagModel.

Module repository_tags.

(** The columns of [Tag] the repository uses. *)
Record Tag := mkTag {
  id : Z;
  name : string;
  user_id : Z
}.

#[global] Instance Tag_eq_dec : EqDecision Tag.
Proof. solve_decision. Defined.

(** The tags table behind the session: its rows, in the order the database
    returns them, and the next value of the sequence of its primary key. *)
Record Session := mkSession {
  tags : list Tag;
  tag_id_seq : Z
}.

Section Tags.

(** The primary key [User.id], a column the authentication flows do not
    read. *)
Variable User_id : models.User -> Z.

(** [and_(Tag.id == tag_id, Tag.user_id == user.id)] *)
Definition owned_with_id (tag_id : Z) (user : models.User) (t : Tag) : Prop :=
  id t = tag_id /\ user_id t = User_id user.

#[global] Instance owned_with_id_dec tag_id user t :
  Decision (owned_with_id tag_id user t).
Proof. unfold owned_with_id. apply _. Defined.

(** [skip] and [limit] are taken non-negative: what a negative offset or
    limit does is up to the database. *)
Definition get_tags (skip limit : Z) (user : models.User) (db : Session)
  : list Tag :=
  take (Z.to_nat limit)
       (drop (Z.to_nat skip)
             (filter (fun t => user_id t = User_id user) (tags db))).

Definition get_tag (tag_id : Z) (user : models.User) (db : Session)
  : option Tag :=
  snd <$> list_find (owned_with_id tag_id user) (tags db).

Definition create_tag (body : TagModel.t) (user : models.User) (db : Session)
  : Tag * Session :=
  let tag := mkTag (tag_id_seq db) (TagModel.name body) (User_id user) in
  (tag, mkSession (tags db ++ [tag]) (tag_id_seq db + 1)).

Definition update_tag (tag_id : Z) (body : TagModel.t) (user : models.User)
           (db : Session) : option Tag * Session :=
  match list_find (owned_with_id tag_id user) (tags db) with
  | Some (i, tag) =>
      let tag := mkTag (id tag) (TagModel.name body) (user_id tag) in
      (Some tag, mkSession (<[i := tag]> (tags db)) (tag_id_seq db))
  | None => (None, db)
  end.

Definition remove_tag (tag_id : Z) (user : models.User) (db : Session)
  : option Tag * Session :=
  match list_find (owned_with_id tag_id user) (tags db) with
  | Some (i, tag) =>
      (Some tag, mkSession (delete i (tags db)) (tag_id_seq db))
  | None => (None, db)
  end.

End Tags.

End repository_tags.

(** ** A concrete deployment, for the examples *)

Module fixtures.

(** A password context whose digests are the password behind a prefix. *)
Definition auth0 : services_auth.Auth :=
  services_auth.mkAuth
    (fun plain hashed => bool_decide (hashed = "$2b$" +:+ plain))
    "s3cret" "HS256".

Definition alice : models.User :=
  models.mkUser "alice@x.com" "alice" "$2b$pw" true models.user None.

Definition bob : models.User :=
  models.mkUser "bob@x.com" "bob" "$2b$hunter2" false models.admin None.

Definition world0 : world :=
  mkWorld (<["alice@x.com" := alice]> (<["bob@x.com" := bob]> ∅)) [] [].

(** The refresh token a login of alice at time 500 returned, and those of
    her login at time 1000, which superseded it. *)
Definition stale : token :=
  services_auth.create_refresh_token auth0 {["sub" := VStr "alice@x.com"]}
    None 500.

Definition access0 : token :=
  services_auth.create_access_token auth0 {["sub" := VStr "alice@x.com"]}
    None 1000.

Definition refresh0 : token :=
  services_auth.create_refresh_token auth0 {["sub" := VStr "alice@x.com"]}
    None 1000.

Definition alice1 : models.User := models.set_refresh_token alice (Some refresh0).

(** The world after that login. *)
Definition world1 : world :=
  mkWorld (<["alice@x.com" := alice1]> (<["bob@x.com" := bob]> ∅)) [] [].

(** The confirmation token mailed to bob at time 900. *)
Definition confirm_bob : token :=
  services_auth.create_email_token auth0 {["sub" := VStr "bob@x.com"]} 900.

(** An access token naming bob. *)
Definition access_bob : token :=
  services_auth.create_access_token auth0 {["sub" := VStr "bob@x.com"]}
    None 1000.

(** A refresh token for an address nobody signed up with. *)
Definition orphan : token :=
  services_auth.create_refresh_token auth0 {["sub" := VStr "ghost@x.com"]}
    None 1000.

(** The body of carol's signup and the digest of her password. *)
Definition carol_body : schemas.UserModel :=
  schemas.mkUserModel "carol" "carol@x.com" "pw3".

Definition hash0 (password : string) : string := "$2b$" +:+ password.

(** Primary keys of the users, and a tags table. *)
Definition id0 (u : models.User) : Z :=
  if bool_decide (models.email u = "alice@x.com") then 1 else 2.

Definition tags0 : repository_tags.Session :=
  repository_tags.mkSession
    [repository_tags.mkTag 1 "work" 1; repository_tags.mkTag 2 "home" 2;
     repository_tags.mkTag 3 "misc" 1] 4.

End fixtures.

Import services_auth.

(** The claims [create_access_token] signs. *)
Definition access_claims (data : dict) (expires_delta : option Z) (now : Z)
  : dict :=
  <["scope" := VStr "access_token"]>
    (<["exp" := VInt (if truthy_delta expires_delta
                      then now + default 0 expires_delta
                      else now + 150 * 60)]>
       (<["iat" := VInt now]> data)).

(** The claims [create_refresh_token] signs. *)
Definition refresh_claims (data : dict) (expires_delta : option Z) (now : Z)
  : dict :=
  <["scope" := VStr "refresh_token"]>
    (<["exp" := VInt (if truthy_delta expires_delta
                      then now + default 0 expires_delta
                      else now + 7 * 86400)]>
       (<["iat" := VInt now]> data)).

(** Every record of the users table is stored under its own e-mail. *)
Definition keyed_by_email (w : world) : Prop :=
  forall e u, users w !! e = Some u -> models.email u = e.

(** [u'] is the account [u], up to its refresh token and to a confirmation
    that was given meanwhile. *)
Definition same_account (u u' : models.User) : Prop :=
  models.email u' = models.email u /\
  models.username u' = models.username u /\
  models.password u' = models.password u /\
  models.role u' = models.role u /\
  (models.confirmed u = true -> models.confirmed u' = true).

(** The users table of [w'] has the accounts of [w], no more and no less. *)
Definition same_accounts (w w' : world) : Prop :=
  forall e, option_Forall2 same_account (users w !! e) (users w' !! e).

(** The primary key of the tags table: no two rows share an id, and the
    sequence is ahead of every id in use. *)
Definition tags_wf (db : repository_tags.Session) : Prop :=
  NoDup (repository_tags.id <$> repository_tags.tags db) /\
  Forall (fun t => (repository_tags.id t < repository_tags.tag_id_seq db)%Z)
         (repository_tags.tags db).

(** * Properties *)

(** The world with the users table replaced. *)
Definition with_users (w : world) (us : gmap string models.User) : world :=
  mkWorld us (background_tasks w) (stdout w).

(** Unfolds the plumbing of [M] and of the repository. *)
Ltac run :=
  unfold repository_users.confirmed_email, repository_users.update_token,
    repository_users.get_user_by_email, print, add_task, with_users,
    mbind, mret, mraise, lift in *;
  cbn [fst snd users background_tasks stdout] in *.

(** ** Login *)

(** C5: Login checks in order: a missing user fails with "Invalid email", an
    unconfirmed user fails with "Email not confirmed" whatever the password
    (also one that verifies), a confirmed user with a wrong password fails
    with "Invalid password"; otherwise an access token (scope access_token)
    and a refresh token (scope refresh_token) for the user's e-mail are
    returned and the refresh token is stored in the user's record. *)
Theorem login_checks_in_order (auth : Auth) (now : Z)
        (username password : string) (w : world) :
  (users w !! username = None ->
   routes_auth.login auth now username password w
   = (Raise (HTTPException 401 "Invalid email" []), w)) /\
  (forall u, users w !! username = Some u ->
     models.confirmed u = false ->
     routes_auth.login auth now username password w
     = (Raise (HTTPException 401 "Email not confirmed" []), w)) /\
  (forall u, users w !! username = Some u ->
     models.confirmed u = true ->
     verify_password auth password (models.password u) = false ->
     routes_auth.login auth now username password w
     = (Raise (HTTPException 401 "Invalid password" []), w)) /\
  (forall u, users w !! username = Some u ->
     models.confirmed u = true ->
     verify_password auth password (models.password u) = true ->
     let access :=
       create_access_token auth {["sub" := VStr (models.email u)]} None now in
     let refresh :=
       create_refresh_token auth {["sub" := VStr (models.email u)]} None now in
     routes_auth.login auth now username password w
     = (Return (schemas.mkTokenModel access refresh "bearer"),
        with_users w (<[models.email u := models.set_refresh_token u (Some refresh)]>
                        (users w)))).
Proof.
  unfold routes_auth.login. run.
  repeat split.
  - intros ->. reflexivity.
  - intros u -> Hc. rewrite Hc. reflexivity.
  - intros u -> Hc Hv. rewrite Hc, Hv. reflexivity.
  - intros u -> Hc Hv. rewrite Hc, Hv. reflexivity.
Qed.

Lemma login_checks_in_order_witness :
  routes_auth.login fixtures.auth0 1000 "nobody@x.com" "pw" fixtures.world0
  = (Raise (HTTPException 401 "Invalid email" []), fixtures.world0) /\
  routes_auth.login fixtures.auth0 1000 "bob@x.com" "hunter2" fixtures.world0
  = (Raise (HTTPException 401 "Email not confirmed" []), fixtures.world0) /\
  routes_auth.login fixtures.auth0 1000 "alice@x.com" "guess" fixtures.world0
  = (Raise (HTTPException 401 "Invalid password" []), fixtures.world0) /\
  fst (routes_auth.login fixtures.auth0 1000 "alice@x.com" "pw" fixtures.world0)
  = Return (schemas.mkTokenModel
              (create_access_token fixtures.auth0
                 {["sub" := VStr "alice@x.com"]} None 1000)
              (create_refresh_token fixtures.auth0
                 {["sub" := VStr "alice@x.com"]} None 1000)
              "bearer").
Proof.
  split; [|split; [|split]].
  - apply (login_checks_in_order fixtures.auth0 1000 "nobody@x.com" "pw"
             fixtures.world0).
    vm_compute. reflexivity.
  - apply (proj1 (proj2 (login_checks_in_order fixtures.auth0 1000
                           "bob@x.com" "hunter2" fixtures.world0))
             fixtures.bob); vm_compute; reflexivity.
  - apply (proj1 (proj2 (proj2 (login_checks_in_order fixtures.auth0 1000
                           "alice@x.com" "guess" fixtures.world0)))
             fixtures.alice); vm_compute; reflexivity.
  - rewrite (proj2 (proj2 (proj2 (login_checks_in_order fixtures.auth0 1000
                           "alice@x.com" "pw" fixtures.world0)))
               fixtures.alice); vm_compute; reflexivity.
Defined.

(** ** The codec as the service uses it *)

Lemma decode_encode (C : dict) (S alg : string) (t : Z) :
  jwt.decode (jwt.encode C S alg) S [alg] t =
  match C !! "exp" with
  | Some (VInt exp) =>
      if (exp <? t)%Z then Raise (JWTError ExpiredSignature) else Return C
  | _ => Return C
  end.
Proof.
  unfold jwt.decode, jwt.encode.
  rewrite !bool_decide_eq_true_2; [reflexivity | reflexivity | ].
  apply list_elem_of_singleton. reflexivity.
Qed.

Lemma create_access_token_claims auth data delta now :
  create_access_token auth data delta now
  = jwt.encode (access_claims data delta now) (SECRET_KEY auth) (ALGORITHM auth).
Proof.
  unfold create_access_token, access_claims.
  destruct (truthy_delta delta); reflexivity.
Qed.

Lemma create_refresh_token_claims auth data delta now :
  create_refresh_token auth data delta now
  = jwt.encode (refresh_claims data delta now) (SECRET_KEY auth) (ALGORITHM auth).
Proof.
  unfold create_refresh_token, refresh_claims.
  destruct (truthy_delta delta); reflexivity.
Qed.

Lemma access_claims_exp data delta now :
  access_claims data delta now !! "exp"
  = Some (VInt (if truthy_delta delta then now + default 0 delta
                else now + 150 * 60)).
Proof. unfold access_claims. by simplify_map_eq. Qed.

Lemma refresh_claims_exp data delta now :
  refresh_claims data delta now !! "exp"
  = Some (VInt (if truthy_delta delta then now + default 0 delta
                else now + 7 * 86400)).
Proof. unfold refresh_claims. by simplify_map_eq. Qed.

Lemma refresh_claims_scope data delta now :
  refresh_claims data delta now !! "scope" = Some (VStr "refresh_token").
Proof. unfold refresh_claims. by simplify_map_eq. Qed.

Lemma access_claims_scope data delta now :
  access_claims data delta now !! "scope" = Some (VStr "access_token").
Proof. unfold access_claims. by simplify_map_eq. Qed.

Lemma refresh_claims_sub data delta now :
  refresh_claims data delta now !! "sub" = data !! "sub".
Proof. unfold refresh_claims. by simplify_map_eq. Qed.

Lemma access_claims_sub data delta now :
  access_claims data delta now !! "sub" = data !! "sub".
Proof. unfold access_claims. by simplify_map_eq. Qed.

(** C6: decoding, with the same secret, a token encoded from the claims C
    gives C back as long as the exp of C has not passed, and fails with the
    expiry error once it has; so it is for the access tokens the service
    issues, whose exp is the time of issue plus the lifetime. *)
Theorem token_round_trip_until_expiry (C : dict) (S alg : string) (exp t : Z) :
  C !! "exp" = Some (VInt exp) ->
  ((t <= exp)%Z -> jwt.decode (jwt.encode C S alg) S [alg] t = Return C) /\
  ((exp < t)%Z ->
   jwt.decode (jwt.encode C S alg) S [alg] t
   = Raise (JWTError ExpiredSignature)) /\
  (forall auth data delta now,
     let issued := create_access_token auth data delta now in
     let expire := (if truthy_delta delta then now + default 0 delta
                    else now + 150 * 60)%Z in
     ((t <= expire)%Z ->
      exists claims,
        issued = jwt.encode claims (SECRET_KEY auth) (ALGORITHM auth) /\
        jwt.decode issued (SECRET_KEY auth) [ALGORITHM auth] t
        = Return claims) /\
     ((expire < t)%Z ->
      jwt.decode issued (SECRET_KEY auth) [ALGORITHM auth] t
      = Raise (JWTError ExpiredSignature))).
Proof.
  intros Hexp. split; [|split].
  - intros Hle. rewrite decode_encode, Hexp.
    destruct (Z.ltb_spec exp t); [lia | reflexivity].
  - intros Hlt. rewrite decode_encode, Hexp.
    destruct (Z.ltb_spec exp t); [reflexivity | lia].
  - intros auth data delta now issued expire. subst issued.
    rewrite create_access_token_claims, decode_encode, access_claims_exp.
    fold expire. split.
    + intros Hle. exists (access_claims data delta now).
      split; [reflexivity|].
      destruct (Z.ltb_spec expire t); [lia | reflexivity].
    + intros Hlt. destruct (Z.ltb_spec expire t); [reflexivity | lia].
Qed.

Lemma token_round_trip_until_expiry_witness :
  jwt.decode (jwt.encode {["sub" := VStr "a@x.com"; "exp" := VInt 500]}
                "k" "HS256") "k" ["HS256"] 500
  = Return {["sub" := VStr "a@x.com"; "exp" := VInt 500]} /\
  jwt.decode (jwt.encode {["sub" := VStr "a@x.com"; "exp" := VInt 500]}
                "k" "HS256") "k" ["HS256"] 501
  = Raise (JWTError ExpiredSignature).
Proof.
  split.
  - apply (token_round_trip_until_expiry
             {["sub" := VStr "a@x.com"; "exp" := VInt 500]} "k" "HS256"
             500 500); [vm_compute; reflexivity | lia].
  - apply (token_round_trip_until_expiry
             {["sub" := VStr "a@x.com"; "exp" := VInt 500]} "k" "HS256"
             500 501); [vm_compute; reflexivity | lia].
Defined.

(** ** Refresh *)

Lemma decode_refresh_token_sub auth tok now payload v :
  jwt.decode tok (SECRET_KEY auth) [ALGORITHM auth] now = Return payload ->
  payload !! "scope" = Some (VStr "refresh_token") ->
  payload !! "sub" = Some v ->
  decode_refresh_token auth tok now = Return v.
Proof.
  intros Hd Hs Hv. unfold decode_refresh_token, subscript.
  rewrite Hd. cbn. rewrite Hs. cbn. rewrite Hv. reflexivity.
Qed.

Lemma decode_refresh_token_no_sub auth tok now payload :
  jwt.decode tok (SECRET_KEY auth) [ALGORITHM auth] now = Return payload ->
  payload !! "scope" = Some (VStr "refresh_token") ->
  payload !! "sub" = None ->
  decode_refresh_token auth tok now = Raise (KeyError "sub").
Proof.
  intros Hd Hs Hv. unfold decode_refresh_token, subscript.
  rewrite Hd. cbn. rewrite Hs. cbn. rewrite Hv. reflexivity.
Qed.

Lemma decode_refresh_token_expired auth tok now :
  jwt.decode tok (SECRET_KEY auth) [ALGORITHM auth] now
  = Raise (JWTError ExpiredSignature) ->
  decode_refresh_token auth tok now
  = Raise (HTTPException 401 "Could not validate credentials" []).
Proof.
  intros Hd. unfold decode_refresh_token. rewrite Hd. reflexivity.
Qed.

(** Time only takes a token from accepted to expired. *)
Lemma decode_later tok key algs t1 t2 payload :
  jwt.decode tok key algs t1 = Return payload ->
  jwt.decode tok key algs t2 = Return payload \/
  jwt.decode tok key algs t2 = Raise (JWTError ExpiredSignature).
Proof.
  unfold jwt.decode. destruct tok as [alg claims k | raw]; [|discriminate].
  destruct (bool_decide (alg ∈ algs) && bool_decide (k = key)); [|discriminate].
  destruct (claims !! "exp") as [[s | exp |] |]; auto.
  destruct (exp <? t1)%Z; [discriminate|].
  destruct (exp <? t2)%Z; auto.
Qed.

Lemma decode_refresh_token_later auth tok t1 t2 v :
  decode_refresh_token auth tok t1 = Return v ->
  decode_refresh_token auth tok t2 = Return v \/
  decode_refresh_token auth tok t2
  = Raise (HTTPException 401 "Could not validate credentials" []).
Proof.
  unfold decode_refresh_token.
  destruct (jwt.decode tok (SECRET_KEY auth) [ALGORITHM auth] t1)
    as [payload | e] eqn:Hd; [|cbn; destruct (is_JWTError e); discriminate].
  destruct (decode_later _ _ _ _ t2 _ Hd) as [-> | ->]; auto.
Qed.

(** What the refresh route does once the token is decoded and the user
    found. *)
Lemma refresh_token_found auth now tok u w :
  decode_refresh_token auth tok now = Return (VStr (models.email u)) ->
  users w !! models.email u = Some u ->
  routes_auth.refresh_token auth now tok w =
  if bool_decide (models.refresh_token u ≠ Some tok) then
    (Raise (HTTPException 401 "Invalid refresh token" []),
     with_users w (<[models.email u := models.set_refresh_token u None]>
                     (users w)))
  else
    let fresh :=
      create_refresh_token auth {["email" := VStr (models.email u)]} None now in
    (Return (schemas.mkTokenModel
               (create_access_token auth {["email" := VStr (models.email u)]}
                  None now)
               fresh "bearer"),
     with_users w (<[models.email u := models.set_refresh_token u (Some fresh)]>
                     (users w))).
Proof.
  intros Hd Hu. unfold routes_auth.refresh_token. run.
  rewrite Hd, Hu. cbn.
  destruct (bool_decide (models.refresh_token u ≠ Some tok)); reflexivity.
Qed.

(** C4: when the stored refresh token of the user differs from the presented
    token (which decodes to the user's e-mail), the refresh route clears the
    stored token and fails with "Invalid refresh token"; presenting the same
    token again, at any time, fails as well and leaves the token cleared. *)
Theorem refresh_mismatch_clears_and_fails auth now tok u w :
  decode_refresh_token auth tok now = Return (VStr (models.email u)) ->
  users w !! models.email u = Some u ->
  models.refresh_token u <> Some tok ->
  let w' := with_users w (<[models.email u := models.set_refresh_token u None]>
                            (users w)) in
  routes_auth.refresh_token auth now tok w
  = (Raise (HTTPException 401 "Invalid refresh token" []), w') /\
  models.refresh_token <$> users w' !! models.email u = Some None /\
  (forall t2,
     decode_refresh_token auth tok t2 = Return (VStr (models.email u)) ->
     routes_auth.refresh_token auth t2 tok w'
     = (Raise (HTTPException 401 "Invalid refresh token" []), w')) /\
  (forall t2, exists e,
     routes_auth.refresh_token auth t2 tok w' = (Raise e, w')).
Proof.
  intros Hd Hu Hne w'.
  assert (Hu' : users w' !! models.email u
                = Some (models.set_refresh_token u None)).
  { subst w'. unfold with_users. cbn. apply lookup_insert_eq. }
  assert (Hagain : forall t2,
     decode_refresh_token auth tok t2 = Return (VStr (models.email u)) ->
     routes_auth.refresh_token auth t2 tok w'
     = (Raise (HTTPException 401 "Invalid refresh token" []), w')).
  { intros t2 Hd2.
    rewrite (refresh_token_found auth t2 tok (models.set_refresh_token u None) w')
      by assumption.
    rewrite bool_decide_eq_true_2 by (cbn; discriminate).
    subst w'. unfold with_users. cbn. rewrite insert_insert_eq. reflexivity. }
  repeat split.
  - rewrite (refresh_token_found auth now tok u w) by assumption.
    rewrite bool_decide_eq_true_2 by assumption. reflexivity.
  - rewrite Hu'. reflexivity.
  - exact Hagain.
  - intros t2.
    destruct (decode_refresh_token_later auth tok now t2 _ Hd) as [Hd2 | Hd2].
    + eexists. apply Hagain, Hd2.
    + eexists. unfold routes_auth.refresh_token. run. rewrite Hd2. reflexivity.
Qed.

Lemma refresh_mismatch_clears_and_fails_witness :
  let w' := with_users fixtures.world1
              (<["alice@x.com" := models.set_refresh_token fixtures.alice1 None]>
                 (users fixtures.world1)) in
  routes_auth.refresh_token fixtures.auth0 2000 fixtures.stale fixtures.world1
  = (Raise (HTTPException 401 "Invalid refresh token" []), w') /\
  models.refresh_token <$> users w' !! "alice@x.com" = Some None /\
  (forall t2,
     decode_refresh_token fixtures.auth0 fixtures.stale t2
     = Return (VStr "alice@x.com") ->
     routes_auth.refresh_token fixtures.auth0 t2 fixtures.stale w'
     = (Raise (HTTPException 401 "Invalid refresh token" []), w')) /\
  (forall t2, exists e,
     routes_auth.refresh_token fixtures.auth0 t2 fixtures.stale w' = (Raise e, w')).
Proof.
  apply (refresh_mismatch_clears_and_fails fixtures.auth0 2000 fixtures.stale
           fixtures.alice1 fixtures.world1).
  - vm_compute. reflexivity.
  - vm_compute. reflexivity.
  - apply (bool_decide_unpack _). vm_compute. exact I.
Defined.

Lemma rotated_token_decodes auth data now t2 :
  (t2 <= now + 7 * 86400)%Z ->
  jwt.decode (create_refresh_token auth data None now)
             (SECRET_KEY auth) [ALGORITHM auth] t2
  = Return (refresh_claims data None now).
Proof.
  intros Hle.
  rewrite create_refresh_token_claims, decode_encode, refresh_claims_exp.
  cbn [truthy_delta]. destruct (Z.ltb_spec (now + 7 * 86400) t2); [lia | reflexivity].
Qed.

Lemma rotated_token_expires auth data now t2 :
  (now + 7 * 86400 < t2)%Z ->
  jwt.decode (create_refresh_token auth data None now)
             (SECRET_KEY auth) [ALGORITHM auth] t2
  = Raise (JWTError ExpiredSignature).
Proof.
  intros Hlt.
  rewrite create_refresh_token_claims, decode_encode, refresh_claims_exp.
  cbn [truthy_delta]. destruct (Z.ltb_spec (now + 7 * 86400) t2); [reflexivity | lia].
Qed.

(** C1: a refresh with the stored token returns a new pair and stores the
    new refresh token, and the old token is refused from then on; but the
    new pair is issued for the claim "email", not "sub", so presenting the
    new refresh token never succeeds: while it has not expired the route
    raises KeyError('sub'), an internal failure, and afterwards it is
    refused as expired. *)
Theorem refresh_rotation_drops_subject auth now tok payload u w :
  jwt.decode tok (SECRET_KEY auth) [ALGORITHM auth] now = Return payload ->
  payload !! "scope" = Some (VStr "refresh_token") ->
  payload !! "sub" = Some (VStr (models.email u)) ->
  users w !! models.email u = Some u ->
  models.refresh_token u = Some tok ->
  let fresh :=
    create_refresh_token auth {["email" := VStr (models.email u)]} None now in
  let w' :=
    with_users w (<[models.email u := models.set_refresh_token u (Some fresh)]>
                    (users w)) in
  routes_auth.refresh_token auth now tok w
  = (Return (schemas.mkTokenModel
               (create_access_token auth {["email" := VStr (models.email u)]}
                  None now)
               fresh "bearer"), w') /\
  (forall t2, (t2 <= now + 7 * 86400)%Z ->
     routes_auth.refresh_token auth t2 fresh w' = (Raise (KeyError "sub"), w')) /\
  (forall t2, (now + 7 * 86400 < t2)%Z ->
     routes_auth.refresh_token auth t2 fresh w'
     = (Raise (HTTPException 401 "Could not validate credentials" []), w')) /\
  (forall t2, exists e w'',
     routes_auth.refresh_token auth t2 tok w' = (Raise e, w'')).
Proof.
  intros Hd Hs Hsub Hu Hst fresh w'.
  pose proof (decode_refresh_token_sub _ _ _ _ _ Hd Hs Hsub) as Hdr.
  assert (Hne : tok <> fresh).
  { intros ->. subst fresh.
    rewrite rotated_token_decodes in Hd by lia.
    injection Hd as <-. rewrite refresh_claims_sub in Hsub. discriminate. }
  repeat split.
  - rewrite (refresh_token_found auth now tok u w) by assumption.
    rewrite bool_decide_eq_false_2; [reflexivity | congruence].
  - intros t2 Hle. unfold routes_auth.refresh_token. run.
    rewrite (decode_refresh_token_no_sub auth fresh t2
               (refresh_claims {["email" := VStr (models.email u)]} None now)).
    + reflexivity.
    + apply rotated_token_decodes, Hle.
    + apply refresh_claims_scope.
    + rewrite refresh_claims_sub. reflexivity.
  - intros t2 Hlt. unfold routes_auth.refresh_token. run.
    rewrite decode_refresh_token_expired; [reflexivity|].
    apply rotated_token_expires, Hlt.
  - intros t2.
    destruct (decode_refresh_token_later auth tok now t2 _ Hdr) as [Hd2 | Hd2].
    + rewrite (refresh_token_found auth t2 tok
                 (models.set_refresh_token u (Some fresh)) w'); [| exact Hd2 |].
      * rewrite bool_decide_eq_true_2; [eauto|]. cbn. congruence.
      * subst w'. unfold with_users. cbn. apply lookup_insert_eq.
    + unfold routes_auth.refresh_token. run. rewrite Hd2. cbn. eauto.
Qed.

Lemma refresh_rotation_drops_subject_witness :
  let fresh :=
    create_refresh_token fixtures.auth0 {["email" := VStr "alice@x.com"]}
      None 2000 in
  let w' :=
    with_users fixtures.world1
      (<["alice@x.com" := models.set_refresh_token fixtures.alice1 (Some fresh)]>
         (users fixtures.world1)) in
  routes_auth.refresh_token fixtures.auth0 2000 fixtures.refresh0 fixtures.world1
  = (Return (schemas.mkTokenModel
               (create_access_token fixtures.auth0
                  {["email" := VStr "alice@x.com"]} None 2000)
               fresh "bearer"), w') /\
  routes_auth.refresh_token fixtures.auth0 3000 fresh w'
  = (Raise (KeyError "sub"), w').
Proof.
  intros fresh w'.
  destruct (refresh_rotation_drops_subject fixtures.auth0 2000 fixtures.refresh0
              (refresh_claims {["sub" := VStr "alice@x.com"]} None 1000)
              fixtures.alice1 fixtures.world1) as (H1 & H2 & _);
    try (vm_compute; reflexivity).
  split; [exact H1 | apply H2; lia].
Defined.

(** C9: when the presented refresh token is validly signed, unexpired, of
    scope refresh_token, and its subject has no user record, the refresh
    route reads the stored token of the absent user without a check: it
    raises AttributeError, an internal failure and not an HTTP error of the
    service, and leaves the state as it was. *)
Theorem refresh_unknown_subject_crashes auth now tok payload email w :
  jwt.decode tok (SECRET_KEY auth) [ALGORITHM auth] now = Return payload ->
  payload !! "scope" = Some (VStr "refresh_token") ->
  payload !! "sub" = Some (VStr email) ->
  users w !! email = None ->
  routes_auth.refresh_token auth now tok w
  = (Raise (AttributeError "refresh_token"), w) /\
  internal_failure (AttributeError "refresh_token") = true.
Proof.
  intros Hd Hs Hsub Hu. split; [|reflexivity].
  unfold routes_auth.refresh_token. run.
  rewrite (decode_refresh_token_sub _ _ _ _ _ Hd Hs Hsub), Hu. reflexivity.
Qed.

Lemma refresh_unknown_subject_crashes_witness :
  routes_auth.refresh_token fixtures.auth0 2000 fixtures.orphan fixtures.world1
  = (Raise (AttributeError "refresh_token"), fixtures.world1) /\
  internal_failure (AttributeError "refresh_token") = true.
Proof.
  apply (refresh_unknown_subject_crashes fixtures.auth0 2000 fixtures.orphan
           (refresh_claims {["sub" := VStr "ghost@x.com"]} None 1000)
           "ghost@x.com" fixtures.world1);
    vm_compute; reflexivity.
Defined.

(** ** Requesting a confirmation e-mail *)

(** C2: for an e-mail with no user record, request_email reads the
    confirmed flag of the absent user and raises AttributeError, an
    internal failure: no message is returned and nothing is queued. For a
    confirmed user it returns the "already confirmed" message, for an
    unconfirmed user it queues the e-mail and returns the generic
    message. *)
Theorem request_email_unknown_user_crashes base_url email w :
  (users w !! email = None ->
   routes_auth.request_email base_url email w
   = (Raise (AttributeError "confirmed"), w) /\
   internal_failure (AttributeError "confirmed") = true) /\
  (forall u, users w !! email = Some u -> models.confirmed u = true ->
     routes_auth.request_email base_url email w
     = (Return {["message" := VStr "Your email is already confirmed"]}, w)) /\
  (forall u, users w !! email = Some u -> models.confirmed u = false ->
     routes_auth.request_email base_url email w
     = (Return {["message" := VStr "Check your email for confirmation."]},
        mkWorld (users w)
                (background_tasks w
                 ++ [(models.email u, models.username u, base_url)])
                (stdout w))).
Proof.
  unfold routes_auth.request_email. run. split; [|split].
  - intros ->. split; reflexivity.
  - intros u -> Hc. cbn. rewrite Hc. reflexivity.
  - intros u -> Hc. cbn. rewrite Hc. reflexivity.
Qed.

Lemma request_email_unknown_user_crashes_witness :
  routes_auth.request_email "http://localhost/" "ghost@x.com" fixtures.world0
  = (Raise (AttributeError "confirmed"), fixtures.world0) /\
  routes_auth.request_email "http://localhost/" "alice@x.com" fixtures.world0
  = (Return {["message" := VStr "Your email is already confirmed"]},
     fixtures.world0) /\
  fst (routes_auth.request_email "http://localhost/" "bob@x.com" fixtures.world0)
  = Return {["message" := VStr "Check your email for confirmation."]}.
Proof.
  split; [|split].
  - apply (request_email_unknown_user_crashes "http://localhost/"
             "ghost@x.com" fixtures.world0).
    vm_compute. reflexivity.
  - apply (proj1 (proj2 (request_email_unknown_user_crashes
             "http://localhost/" "alice@x.com" fixtures.world0))
             fixtures.alice); vm_compute; reflexivity.
  - rewrite (proj2 (proj2 (request_email_unknown_user_crashes
             "http://localhost/" "bob@x.com" fixtures.world0))
             fixtures.bob); vm_compute; reflexivity.
Defined.

(** ** The guard of the protected endpoints *)

Lemma get_current_user_wrong_scope auth now tok payload scope w :
  jwt.decode tok (SECRET_KEY auth) [ALGORITHM auth] now = Return payload ->
  payload !! "scope" = Some scope ->
  scope <> VStr "access_token" ->
  get_current_user auth tok now w = (Raise credentials_exception, w).
Proof.
  intros Hd Hs Hne. unfold get_current_user, subscript. run.
  rewrite Hd. cbn. rewrite Hs. cbn.
  rewrite bool_decide_eq_false_2 by assumption. reflexivity.
Qed.

Lemma get_current_user_undecodable auth now tok why w :
  jwt.decode tok (SECRET_KEY auth) [ALGORITHM auth] now = Raise (JWTError why) ->
  get_current_user auth tok now w = (Raise credentials_exception, w).
Proof.
  intros Hd. unfold get_current_user. run. rewrite Hd. reflexivity.
Qed.

Lemma get_current_user_lookup auth now tok payload email w :
  jwt.decode tok (SECRET_KEY auth) [ALGORITHM auth] now = Return payload ->
  payload !! "scope" = Some (VStr "access_token") ->
  payload !! "sub" = Some (VStr email) ->
  get_current_user auth tok now w =
  match users w !! email with
  | Some u => (Return u, w)
  | None => (Raise credentials_exception, w)
  end.
Proof.
  intros Hd Hs Hsub. unfold get_current_user, subscript. run.
  rewrite Hd. cbn. rewrite Hs. cbn. rewrite Hsub. cbn.
  rewrite bool_decide_eq_true_2 by reflexivity.
  rewrite bool_decide_eq_false_2 by discriminate. cbn.
  destruct (users w !! email); reflexivity.
Qed.

(** C3, as the code has it: a validly signed, unexpired token whose scope is
    refresh_token is refused by get_current_user with the generic 401
    "Could not validate credentials", which is also what an undecodable
    token and an access token of a missing user get; the state is left as
    it was. *)
Theorem get_current_user_refresh_scope_generic auth now tok payload w :
  jwt.decode tok (SECRET_KEY auth) [ALGORITHM auth] now = Return payload ->
  payload !! "scope" = Some (VStr "refresh_token") ->
  get_current_user auth tok now w = (Raise credentials_exception, w) /\
  (forall junk why,
     jwt.decode junk (SECRET_KEY auth) [ALGORITHM auth] now
     = Raise (JWTError why) ->
     get_current_user auth junk now w = (Raise credentials_exception, w)) /\
  (forall other claims email,
     jwt.decode other (SECRET_KEY auth) [ALGORITHM auth] now = Return claims ->
     claims !! "scope" = Some (VStr "access_token") ->
     claims !! "sub" = Some (VStr email) ->
     users w !! email = None ->
     get_current_user auth other now w = (Raise credentials_exception, w)).
Proof.
  intros Hd Hs. split; [|split].
  - apply (get_current_user_wrong_scope _ _ _ _ _ _ Hd Hs). discriminate.
  - intros junk why Hj. apply (get_current_user_undecodable _ _ _ _ _ Hj).
  - intros other claims email Ho Hsc Hsub Hu.
    rewrite (get_current_user_lookup _ _ _ _ _ _ Ho Hsc Hsub), Hu. reflexivity.
Qed.

Lemma get_current_user_refresh_scope_generic_witness :
  get_current_user fixtures.auth0 fixtures.refresh0 2000 fixtures.world1
  = (Raise credentials_exception, fixtures.world1) /\
  get_current_user fixtures.auth0 (Garbage "abc") 2000 fixtures.world1
  = (Raise credentials_exception, fixtures.world1).
Proof.
  destruct (get_current_user_refresh_scope_generic fixtures.auth0 2000
              fixtures.refresh0
              (refresh_claims {["sub" := VStr "alice@x.com"]} None 1000)
              fixtures.world1) as (H1 & H2 & _);
    try (vm_compute; reflexivity).
  split; [exact H1 | apply (H2 (Garbage "abc") MalformedToken); reflexivity].
Defined.

(** C3, as stated, fails: for the refresh token of alice's login, the error
    get_current_user raises is not distinct from the generic credentials
    failure, it is that failure. *)
Lemma get_current_user_refresh_scope_not_distinct :
  fst (get_current_user fixtures.auth0 fixtures.refresh0 2000 fixtures.world1)
  = Raise credentials_exception /\
  ~ (exists e,
       fst (get_current_user fixtures.auth0 fixtures.refresh0 2000
              fixtures.world1) = Raise e /\
       e <> credentials_exception).
Proof.
  assert (H : fst (get_current_user fixtures.auth0 fixtures.refresh0 2000
                     fixtures.world1) = Raise credentials_exception)
    by (vm_compute; reflexivity).
  split; [exact H|].
  intros (e & He & Hne). rewrite H in He. injection He as <-. apply Hne. reflexivity.
Qed.

(** ** E-mail confirmation *)

Lemma get_email_from_token_sub auth now tok payload v w :
  jwt.decode tok (SECRET_KEY auth) [ALGORITHM auth] now = Return payload ->
  payload !! "sub" = Some v ->
  get_email_from_token auth tok now w = (Return v, w).
Proof.
  intros Hd Hsub. unfold get_email_from_token, subscript.
  rewrite Hd. cbn. rewrite Hsub. reflexivity.
Qed.

(** What the confirmation route does once the token gave an e-mail. *)
Lemma confirmed_email_decoded auth now tok payload email w :
  jwt.decode tok (SECRET_KEY auth) [ALGORITHM auth] now = Return payload ->
  payload !! "sub" = Some (VStr email) ->
  routes_auth.confirmed_email auth now tok w =
  match users w !! email with
  | None => (Raise (HTTPException 400 "Verification error" []), w)
  | Some u =>
      if models.confirmed u then
        (Return {["message" := VStr "Your email is already confirmed"]}, w)
      else
        (Return {["message" := VStr "Email confirmed"]},
         with_users w (<[models.email u := models.set_confirmed u]> (users w)))
  end.
Proof.
  intros Hd Hsub. unfold routes_auth.confirmed_email.
  unfold mbind at 1.
  rewrite (get_email_from_token_sub _ _ _ _ _ _ Hd Hsub). run.
  destruct (users w !! email) as [u|] eqn:Hu; [|reflexivity].
  destruct (models.confirmed u); [reflexivity|].
  rewrite Hu. reflexivity.
Qed.

(** C7: for an unconfirmed user, the first confirmation with a valid token
    marks the user confirmed and returns "Email confirmed"; a second one on
    the resulting state returns "Your email is already confirmed", raises
    nothing and changes nothing; and when the subject of the token has no
    user record the route fails with 400 "Verification error". *)
Theorem confirmed_email_idempotent auth t1 t2 tok payload u w :
  jwt.decode tok (SECRET_KEY auth) [ALGORITHM auth] t1 = Return payload ->
  jwt.decode tok (SECRET_KEY auth) [ALGORITHM auth] t2 = Return payload ->
  payload !! "sub" = Some (VStr (models.email u)) ->
  users w !! models.email u = Some u ->
  models.confirmed u = false ->
  let w1 := with_users w (<[models.email u := models.set_confirmed u]>
                            (users w)) in
  routes_auth.confirmed_email auth t1 tok w
  = (Return {["message" := VStr "Email confirmed"]}, w1) /\
  models.confirmed <$> users w1 !! models.email u = Some true /\
  routes_auth.confirmed_email auth t2 tok w1
  = (Return {["message" := VStr "Your email is already confirmed"]}, w1) /\
  (forall w0, users w0 !! models.email u = None ->
     routes_auth.confirmed_email auth t1 tok w0
     = (Raise (HTTPException 400 "Verification error" []), w0)).
Proof.
  intros Hd1 Hd2 Hsub Hu Hc w1.
  assert (Hu1 : users w1 !! models.email u = Some (models.set_confirmed u)).
  { subst w1. unfold with_users. cbn. apply lookup_insert_eq. }
  split; [|split; [|split]].
  - rewrite (confirmed_email_decoded _ _ _ _ _ _ Hd1 Hsub), Hu, Hc. reflexivity.
  - rewrite Hu1. reflexivity.
  - rewrite (confirmed_email_decoded _ _ _ _ _ _ Hd2 Hsub), Hu1. reflexivity.
  - intros w0 H0.
    rewrite (confirmed_email_decoded _ _ _ _ _ _ Hd1 Hsub), H0. reflexivity.
Qed.

Lemma confirmed_email_idempotent_witness :
  let w1 := with_users fixtures.world0
              (<["bob@x.com" := models.set_confirmed fixtures.bob]>
                 (users fixtures.world0)) in
  routes_auth.confirmed_email fixtures.auth0 1000 fixtures.confirm_bob
    fixtures.world0
  = (Return {["message" := VStr "Email confirmed"]}, w1) /\
  routes_auth.confirmed_email fixtures.auth0 1500 fixtures.confirm_bob w1
  = (Return {["message" := VStr "Your email is already confirmed"]}, w1).
Proof.
  intros w1.
  destruct (confirmed_email_idempotent fixtures.auth0 1000 1500
              fixtures.confirm_bob
              (<["exp" := VInt (900 + 7 * 86400)]>
                 (<["iat" := VInt 900]> {["sub" := VStr "bob@x.com"]}))
              fixtures.bob fixtures.world0) as (H1 & _ & H2 & _);
    try (vm_compute; reflexivity).
  split; [exact H1 | exact H2].
Defined.

(** C10: get_email_from_token looks at no scope: whenever a token is validly
    signed and unexpired and carries a string sub claim, it returns that
    subject, and the confirmation route then confirms the unconfirmed user
    of that e-mail. The access token and the refresh token a login issues
    for an e-mail are such tokens until they expire. *)
Theorem confirmation_accepts_any_scope auth now tok payload email w :
  jwt.decode tok (SECRET_KEY auth) [ALGORITHM auth] now = Return payload ->
  payload !! "sub" = Some (VStr email) ->
  get_email_from_token auth tok now w = (Return (VStr email), w) /\
  (forall u, users w !! email = Some u -> models.email u = email ->
     models.confirmed u = false ->
     routes_auth.confirmed_email auth now tok w
     = (Return {["message" := VStr "Email confirmed"]},
        with_users w (<[email := models.set_confirmed u]> (users w)))) /\
  (forall t0, (now <= t0 + 150 * 60)%Z ->
     get_email_from_token auth
       (create_access_token auth {["sub" := VStr email]} None t0) now w
     = (Return (VStr email), w)) /\
  (forall t0, (now <= t0 + 7 * 86400)%Z ->
     get_email_from_token auth
       (create_refresh_token auth {["sub" := VStr email]} None t0) now w
     = (Return (VStr email), w)).
Proof.
  intros Hd Hsub. split; [|split; [|split]].
  - apply (get_email_from_token_sub _ _ _ _ _ _ Hd Hsub).
  - intros u Hu He Hc.
    rewrite (confirmed_email_decoded _ _ _ _ _ _ Hd Hsub), Hu, Hc, He.
    reflexivity.
  - intros t0 Hle.
    apply (get_email_from_token_sub auth now _
             (access_claims {["sub" := VStr email]} None t0)).
    + rewrite create_access_token_claims, decode_encode, access_claims_exp.
      cbn [truthy_delta].
      destruct (Z.ltb_spec (t0 + 150 * 60) now); [lia | reflexivity].
    + rewrite access_claims_sub. apply lookup_singleton_eq.
  - intros t0 Hle.
    apply (get_email_from_token_sub auth now _
             (refresh_claims {["sub" := VStr email]} None t0)).
    + apply rotated_token_decodes, Hle.
    + rewrite refresh_claims_sub. apply lookup_singleton_eq.
Qed.

Lemma confirmation_accepts_any_scope_witness :
  get_email_from_token fixtures.auth0 fixtures.access_bob 2000 fixtures.world0
  = (Return (VStr "bob@x.com"), fixtures.world0) /\
  routes_auth.confirmed_email fixtures.auth0 2000 fixtures.access_bob
    fixtures.world0
  = (Return {["message" := VStr "Email confirmed"]},
     with_users fixtures.world0
       (<["bob@x.com" := models.set_confirmed fixtures.bob]>
          (users fixtures.world0))).
Proof.
  destruct (confirmation_accepts_any_scope fixtures.auth0 2000
              fixtures.access_bob
              (access_claims {["sub" := VStr "bob@x.com"]} None 1000)
              "bob@x.com" fixtures.world0) as (H1 & H2 & _);
    try (vm_compute; reflexivity).
  split; [exact H1 | apply (H2 fixtures.bob); vm_compute; reflexivity].
Defined.

(** ** The role gate *)

(** C8: for every resolved user and every gate, the gate raises 403
    "Operation forbidden" exactly when the role of the user is not among the
    allowed roles, and returns otherwise; either way the users table and the
    queued e-mails are as before (the two debug lines are printed). A user
    of role user is refused by a gate allowing admin only, a user of role
    admin passes; on a request, the gate is this check on the user resolved
    by get_current_user. *)
Theorem role_gate_forbidden_iff (self : services_roles.RoleAccess)
        (u : models.User) (w : world) :
  let w' := mkWorld (users w) (background_tasks w)
              (stdout w ++ [PrintRole (models.role u)]
                        ++ [PrintRoles (services_roles.allowed_roles self)]) in
  (models.role u ∉ services_roles.allowed_roles self ->
   services_roles.__call__ self u w
   = (Raise (HTTPException 403 "Operation forbidden" []), w')) /\
  (models.role u ∈ services_roles.allowed_roles self ->
   services_roles.__call__ self u w = (Return tt, w')) /\
  (fst (services_roles.__call__ self u w)
   = Raise (HTTPException 403 "Operation forbidden" [])
   <-> models.role u ∉ services_roles.allowed_roles self) /\
  users (snd (services_roles.__call__ self u w)) = users w /\
  background_tasks (snd (services_roles.__call__ self u w)) = background_tasks w /\
  (models.role u = models.user ->
   fst (services_roles.__call__ (services_roles.mkRoleAccess [models.admin]) u w)
   = Raise (HTTPException 403 "Operation forbidden" [])) /\
  (models.role u = models.admin ->
   fst (services_roles.__call__ (services_roles.mkRoleAccess [models.admin]) u w)
   = Return tt) /\
  (forall auth tok now,
     get_current_user auth tok now w = (Return u, w) ->
     services_roles.gate auth self tok now w = services_roles.__call__ self u w).
Proof.
  intros w'. unfold services_roles.gate, services_roles.__call__. run.
  rewrite <- !app_assoc. fold w'.
  repeat match goal with |- _ /\ _ => split end.
  - intros Hn. rewrite bool_decide_eq_true_2 by assumption. reflexivity.
  - intros Hin. rewrite bool_decide_eq_false_2 by (intros Hn; apply Hn, Hin).
    reflexivity.
  - case_bool_decide; cbn; split; intros; try assumption; try reflexivity;
      try discriminate; contradiction.
  - case_bool_decide; reflexivity.
  - case_bool_decide; reflexivity.
  - intros ->. reflexivity.
  - intros ->. reflexivity.
  - intros auth tok now ->. cbn. rewrite <- !app_assoc. reflexivity.
Qed.

Lemma role_gate_forbidden_iff_witness :
  fst (services_roles.__call__ (services_roles.mkRoleAccess [models.admin])
         fixtures.alice fixtures.world0)
  = Raise (HTTPException 403 "Operation forbidden" []) /\
  fst (services_roles.__call__ (services_roles.mkRoleAccess [models.admin])
         fixtures.bob fixtures.world0)
  = Return tt.
Proof.
  split.
  - apply (role_gate_forbidden_iff
             (services_roles.mkRoleAccess [models.admin]) fixtures.alice
             fixtures.world0).
    reflexivity.
  - apply (role_gate_forbidden_iff
             (services_roles.mkRoleAccess [models.admin]) fixtures.bob
             fixtures.world0).
    reflexivity.
Defined.

(** * Further properties of the service *)

(** ** Tokens presented to the wrong decoder *)

Lemma decode_raises_JWTError tok key algs t e :
  jwt.decode tok key algs t = Raise e -> exists why, e = JWTError why.
Proof.
  unfold jwt.decode. destruct tok as [alg claims k | raw].
  - destruct (bool_decide (alg ∈ algs) && bool_decide (k = key)).
    + destruct (claims !! "exp") as [[s | exp |] |]; try discriminate.
      destruct (exp <? t)%Z; [|discriminate]. intros [= <-]. eauto.
    + intros [= <-]. eauto.
  - intros [= <-]. eauto.
Qed.

Lemma access_token_decodes auth data delta t0 t :
  (t <= if truthy_delta delta then t0 + default 0 delta else t0 + 150 * 60)%Z ->
  jwt.decode (create_access_token auth data delta t0)
             (SECRET_KEY auth) [ALGORITHM auth] t
  = Return (access_claims data delta t0).
Proof.
  intros Hle.
  rewrite create_access_token_claims, decode_encode, access_claims_exp.
  match goal with |- context [(?e <? t)%Z] => destruct (Z.ltb_spec e t) end;
    [lia | reflexivity].
Qed.

(** X1: an access token, whatever the data it was created from (even data
    that names the scope refresh_token), is never accepted as a refresh
    token: while it has not expired, decode_refresh_token raises 401
    "Invalid scope for token", and the refresh route fails with it before
    it reads or changes any user. *)
Theorem access_token_is_no_refresh_token auth data delta t0 t w :
  (t <= if truthy_delta delta then t0 + default 0 delta else t0 + 150 * 60)%Z ->
  decode_refresh_token auth (create_access_token auth data delta t0) t
  = Raise (HTTPException 401 "Invalid scope for token" []) /\
  routes_auth.refresh_token auth t (create_access_token auth data delta t0) w
  = (Raise (HTTPException 401 "Invalid scope for token" []), w).
Proof.
  intros Hle.
  assert (Hd : decode_refresh_token auth
                 (create_access_token auth data delta t0) t
               = Raise (HTTPException 401 "Invalid scope for token" [])).
  { unfold decode_refresh_token, subscript.
    rewrite (access_token_decodes _ _ _ _ _ Hle). cbn.
    rewrite access_claims_scope. reflexivity. }
  split; [exact Hd|].
  unfold routes_auth.refresh_token. run. rewrite Hd. reflexivity.
Qed.

Lemma access_token_is_no_refresh_token_witness :
  routes_auth.refresh_token fixtures.auth0 2000
    (create_access_token fixtures.auth0
       {["sub" := VStr "alice@x.com"; "scope" := VStr "refresh_token"]}
       None 1000)
    fixtures.world1
  = (Raise (HTTPException 401 "Invalid scope for token" []), fixtures.world1).
Proof.
  apply (access_token_is_no_refresh_token fixtures.auth0
           {["sub" := VStr "alice@x.com"; "scope" := VStr "refresh_token"]}
           None 1000 2000 fixtures.world1).
  vm_compute. discriminate.
Defined.

Lemma email_token_decodes auth data t0 t :
  (t <= t0 + 7 * 86400)%Z ->
  jwt.decode (create_email_token auth data t0)
             (SECRET_KEY auth) [ALGORITHM auth] t
  = Return (<["exp" := VInt (t0 + 7 * 86400)]> (<["iat" := VInt t0]> data)).
Proof.
  intros Hle. unfold create_email_token.
  rewrite decode_encode, lookup_insert_eq.
  destruct (Z.ltb_spec (t0 + 7 * 86400) t); [lia | reflexivity].
Qed.

Lemma email_token_expires auth data t0 t :
  (t0 + 7 * 86400 < t)%Z ->
  jwt.decode (create_email_token auth data t0)
             (SECRET_KEY auth) [ALGORITHM auth] t
  = Raise (JWTError ExpiredSignature).
Proof.
  intros Hlt. unfold create_email_token.
  rewrite decode_encode, lookup_insert_eq.
  destruct (Z.ltb_spec (t0 + 7 * 86400) t); [reflexivity | lia].
Qed.

(** X2: an e-mail confirmation token carries no scope claim (unless the
    data it was created from has one), so while it has not expired the two
    decoders that test the scope do not refuse it with an HTTP error: both
    decode_refresh_token and get_current_user raise KeyError('scope'), an
    internal failure. *)
Theorem email_token_has_no_scope auth data t0 t w :
  data !! "scope" = None ->
  (t <= t0 + 7 * 86400)%Z ->
  decode_refresh_token auth (create_email_token auth data t0) t
  = Raise (KeyError "scope") /\
  get_current_user auth (create_email_token auth data t0) t w
  = (Raise (KeyError "scope"), w) /\
  internal_failure (KeyError "scope") = true.
Proof.
  intros Hs Hle.
  assert (Hl : (<["exp" := VInt (t0 + 7 * 86400)]> (<["iat" := VInt t0]> data)
                : dict) !! "scope" = None) by (by simplify_map_eq).
  split; [|split; [|reflexivity]].
  - unfold decode_refresh_token, subscript.
    rewrite (email_token_decodes _ _ _ _ Hle). cbn. rewrite Hl. reflexivity.
  - unfold get_current_user, subscript. run.
    rewrite (email_token_decodes _ _ _ _ Hle). cbn. rewrite Hl. reflexivity.
Qed.

Lemma email_token_has_no_scope_witness :
  decode_refresh_token fixtures.auth0 fixtures.confirm_bob 1000
  = Raise (KeyError "scope") /\
  get_current_user fixtures.auth0 fixtures.confirm_bob 1000 fixtures.world0
  = (Raise (KeyError "scope"), fixtures.world0) /\
  internal_failure (KeyError "scope") = true.
Proof.
  apply (email_token_has_no_scope fixtures.auth0
           {["sub" := VStr "bob@x.com"]} 900 1000 fixtures.world0).
  - vm_compute. reflexivity.
  - lia.
Defined.

(** ** Tokens that do not verify *)

(** X3: a token signed with another key than the service's secret is
    accepted nowhere: decode_refresh_token and get_current_user raise 401
    "Could not validate credentials", the refresh route fails with it
    without clearing any stored token, and the confirmation route prints the
    decoding error and fails with 422 "Invalid token for email
    verification" without confirming anybody. *)
Theorem foreign_key_token_refused auth alg claims key t w :
  key <> SECRET_KEY auth ->
  decode_refresh_token auth (Signed alg claims key) t
  = Raise (HTTPException 401 "Could not validate credentials" []) /\
  get_current_user auth (Signed alg claims key) t w
  = (Raise credentials_exception, w) /\
  routes_auth.refresh_token auth t (Signed alg claims key) w
  = (Raise (HTTPException 401 "Could not validate credentials" []), w) /\
  routes_auth.confirmed_email auth t (Signed alg claims key) w
  = (Raise (HTTPException 422 "Invalid token for email verification" []),
     mkWorld (users w) (background_tasks w)
             (stdout w ++ [PrintExn (JWTError SignatureFailed)])).
Proof.
  intros Hne.
  assert (Hd : jwt.decode (Signed alg claims key) (SECRET_KEY auth)
                 [ALGORITHM auth] t = Raise (JWTError SignatureFailed)).
  { unfold jwt.decode. rewrite (bool_decide_eq_false_2 (key = _)) by assumption.
    rewrite andb_false_r. reflexivity. }
  assert (Hr : decode_refresh_token auth (Signed alg claims key) t
               = Raise (HTTPException 401 "Could not validate credentials" [])).
  { unfold decode_refresh_token. rewrite Hd. reflexivity. }
  split; [exact Hr | split; [|split]].
  - apply (get_current_user_undecodable _ _ _ _ _ Hd).
  - unfold routes_auth.refresh_token. run. rewrite Hr. reflexivity.
  - unfold routes_auth.confirmed_email, get_email_from_token. rewrite Hd.
    reflexivity.
Qed.

Lemma foreign_key_token_refused_witness :
  routes_auth.refresh_token fixtures.auth0 2000
    (Signed "HS256" (refresh_claims {["sub" := VStr "alice@x.com"]} None 1000)
            "guessed")
    fixtures.world1
  = (Raise (HTTPException 401 "Could not validate credentials" []),
     fixtures.world1).
Proof.
  apply (foreign_key_token_refused fixtures.auth0 "HS256"
           (refresh_claims {["sub" := VStr "alice@x.com"]} None 1000)
           "guessed" 2000 fixtures.world1).
  discriminate.
Defined.

(** X4: the subject put into an e-mail confirmation token comes back from
    get_email_from_token for seven days: for data with a sub claim, the
    token created at t0 yields that claim at every time up to
    t0 + 604800 seconds and leaves the state alone; later the decoding
    error is printed and 422 "Invalid token for email verification" is
    raised. Data without a sub claim gives a token on which
    get_email_from_token raises KeyError('sub'). *)
Theorem email_token_round_trip auth data t0 t w :
  (forall v, data !! "sub" = Some v -> (t <= t0 + 7 * 86400)%Z ->
     get_email_from_token auth (create_email_token auth data t0) t w
     = (Return v, w)) /\
  ((t0 + 7 * 86400 < t)%Z ->
   get_email_from_token auth (create_email_token auth data t0) t w
   = (Raise (HTTPException 422 "Invalid token for email verification" []),
      mkWorld (users w) (background_tasks w)
              (stdout w ++ [PrintExn (JWTError ExpiredSignature)]))) /\
  (data !! "sub" = None -> (t <= t0 + 7 * 86400)%Z ->
   get_email_from_token auth (create_email_token auth data t0) t w
   = (Raise (KeyError "sub"), w)).
Proof.
  split; [|split].
  - intros v Hv Hle.
    apply (get_email_from_token_sub _ _ _ _ _ _ (email_token_decodes _ _ _ _ Hle)).
    by simplify_map_eq.
  - intros Hlt. unfold get_email_from_token.
    rewrite (email_token_expires _ _ _ _ Hlt). reflexivity.
  - intros Hv Hle. unfold get_email_from_token, subscript.
    rewrite (email_token_decodes _ _ _ _ Hle). cbn.
    assert (Hl : (<["exp" := VInt (t0 + 7 * 86400)]>
                    (<["iat" := VInt t0]> data) : dict) !! "sub" = None)
      by (by simplify_map_eq).
    rewrite Hl. reflexivity.
Qed.

Lemma email_token_round_trip_witness :
  get_email_from_token fixtures.auth0 fixtures.confirm_bob (900 + 604800)
    fixtures.world0
  = (Return (VStr "bob@x.com"), fixtures.world0) /\
  fst (get_email_from_token fixtures.auth0 fixtures.confirm_bob
         (900 + 604801) fixtures.world0)
  = Raise (HTTPException 422 "Invalid token for email verification" []).
Proof.
  split.
  - apply (proj1 (email_token_round_trip fixtures.auth0
                    {["sub" := VStr "bob@x.com"]} 900 (900 + 604800)
                    fixtures.world0) (VStr "bob@x.com"));
      [vm_compute; reflexivity | lia].
  - unfold fixtures.confirm_bob.
    rewrite (proj1 (proj2 (email_token_round_trip fixtures.auth0
                    {["sub" := VStr "bob@x.com"]} 900 (900 + 604801)
                    fixtures.world0))); [reflexivity | lia].
Defined.

(** ** The lifetime argument *)



(** ** What the tokens of a login are good for *)

Lemma login_success auth now username password u w :
  users w !! username = Some u ->
  models.confirmed u = true ->
  verify_password auth password (models.password u) = true ->
  routes_auth.login auth now username password w
  = (Return (schemas.mkTokenModel
               (create_access_token auth {["sub" := VStr (models.email u)]}
                  None now)
               (create_refresh_token auth {["sub" := VStr (models.email u)]}
                  None now)
               "bearer"),
     with_users w
       (<[models.email u :=
            models.set_refresh_token u
              (Some (create_refresh_token auth
                       {["sub" := VStr (models.email u)]} None now))]>
          (users w))).
Proof.
  intros Hu Hc Hv. unfold routes_auth.login. run.
  rewrite Hu, Hc, Hv. reflexivity.
Qed.

(** X6: the access token a successful login returns authenticates its
    user: from the state the login leaves, get_current_user returns the
    user's record (with the refresh token just stored) at every time up to
    150 minutes after the login, and changes nothing; later it raises 401
    "Could not validate credentials". *)
Theorem login_access_token_authenticates auth now username password u w t :
  users w !! username = Some u ->
  models.confirmed u = true ->
  verify_password auth password (models.password u) = true ->
  exists tokens w1,
    routes_auth.login auth now username password w = (Return tokens, w1) /\
    ((t <= now + 150 * 60)%Z ->
     get_current_user auth (schemas.access_token tokens) t w1
     = (Return (models.set_refresh_token u
                  (Some (schemas.refresh_token tokens))), w1)) /\
    ((now + 150 * 60 < t)%Z ->
     get_current_user auth (schemas.access_token tokens) t w1
     = (Raise credentials_exception, w1)).
Proof.
  intros Hu Hc Hv. eexists _, _.
  split; [apply (login_success _ _ _ _ _ _ Hu Hc Hv)|].
  cbn [schemas.access_token schemas.refresh_token]. split.
  - intros Hle.
    rewrite (get_current_user_lookup auth t _
               (access_claims {["sub" := VStr (models.email u)]} None now)
               (models.email u)).
    + unfold with_users. cbn. rewrite lookup_insert_eq. reflexivity.
    + apply access_token_decodes. cbn. exact Hle.
    + apply access_claims_scope.
    + rewrite access_claims_sub. apply lookup_singleton_eq.
  - intros Hlt. apply (get_current_user_undecodable _ _ _ ExpiredSignature).
    rewrite create_access_token_claims, decode_encode, access_claims_exp.
    cbn [truthy_delta].
    destruct (Z.ltb_spec (now + 150 * 60) t); [reflexivity | lia].
Qed.

Lemma login_access_token_authenticates_witness :
  exists tokens w1,
    routes_auth.login fixtures.auth0 1000 "alice@x.com" "pw" fixtures.world0
    = (Return tokens, w1) /\
    get_current_user fixtures.auth0 (schemas.access_token tokens) 10000 w1
    = (Return (models.set_refresh_token fixtures.alice
                 (Some (schemas.refresh_token tokens))), w1).
Proof.
  destruct (login_access_token_authenticates fixtures.auth0 1000
              "alice@x.com" "pw" fixtures.alice fixtures.world0 10000)
    as (tokens & w1 & Hl & Hok & _); try (vm_compute; reflexivity).
  exists tokens, w1. split; [exact Hl | apply Hok; lia].
Defined.

(** X7: the refresh token a successful login returns can be exchanged: for
    a user stored under their e-mail, presenting it to the refresh route at
    any time up to 7 days after the login returns a new pair and replaces
    the stored refresh token by the new one. *)
Theorem login_refresh_token_exchanges auth now password u w t :
  users w !! models.email u = Some u ->
  models.confirmed u = true ->
  verify_password auth password (models.password u) = true ->
  (t <= now + 7 * 86400)%Z ->
  exists tokens w1 tokens' w2,
    routes_auth.login auth now (models.email u) password w
    = (Return tokens, w1) /\
    routes_auth.refresh_token auth t (schemas.refresh_token tokens) w1
    = (Return tokens', w2) /\
    models.refresh_token <$> users w2 !! models.email u
    = Some (Some (schemas.refresh_token tokens')).
Proof.
  intros Hu Hc Hv Hle. eexists _, _, _, _.
  split; [apply (login_success _ _ _ _ _ _ Hu Hc Hv)|].
  cbn [schemas.access_token schemas.refresh_token].
  set (fresh := create_refresh_token auth {["sub" := VStr (models.email u)]}
                  None now).
  rewrite (refresh_token_found auth t fresh
             (models.set_refresh_token u (Some fresh))).
  - rewrite bool_decide_eq_false_2 by (intros H; apply H; reflexivity).
    split; [reflexivity|]. cbn. rewrite lookup_insert_eq. reflexivity.
  - apply (decode_refresh_token_sub auth fresh t
             (refresh_claims {["sub" := VStr (models.email u)]} None now)).
    + apply rotated_token_decodes, Hle.
    + apply refresh_claims_scope.
    + rewrite refresh_claims_sub. apply lookup_singleton_eq.
  - cbn. apply lookup_insert_eq.
Qed.

Lemma login_refresh_token_exchanges_witness :
  exists tokens w1 tokens' w2,
    routes_auth.login fixtures.auth0 1000 "alice@x.com" "pw" fixtures.world0
    = (Return tokens, w1) /\
    routes_auth.refresh_token fixtures.auth0 2000
      (schemas.refresh_token tokens) w1
    = (Return tokens', w2) /\
    models.refresh_token <$> users w2 !! "alice@x.com"
    = Some (Some (schemas.refresh_token tokens')).
Proof.
  apply (login_refresh_token_exchanges fixtures.auth0 1000 "pw"
           fixtures.alice fixtures.world0 2000);
    try (vm_compute; reflexivity).
  lia.
Defined.

(** ** After a refresh *)

(** X8: a mismatch logs the user out. Once a token that decodes to the
    user's e-mail but is not the stored one has been presented, the stored
    token is cleared, and from that state every refresh token that decodes
    to this e-mail, the one that was stored included, is refused with 401
    "Invalid refresh token" and leaves the token cleared. *)
Theorem refresh_mismatch_revokes_all auth now tok u w :
  decode_refresh_token auth tok now = Return (VStr (models.email u)) ->
  users w !! models.email u = Some u ->
  models.refresh_token u <> Some tok ->
  forall t2 tok2,
    decode_refresh_token auth tok2 t2 = Return (VStr (models.email u)) ->
    routes_auth.refresh_token auth t2 tok2
      (snd (routes_auth.refresh_token auth now tok w))
    = (Raise (HTTPException 401 "Invalid refresh token" []),
       snd (routes_auth.refresh_token auth now tok w)).
Proof.
  intros Hd Hu Hne t2 tok2 Hd2.
  rewrite (refresh_token_found auth now tok u w) by assumption.
  rewrite bool_decide_eq_true_2 by assumption. cbn [snd].
  rewrite (refresh_token_found auth t2 tok2 (models.set_refresh_token u None)).
  - rewrite bool_decide_eq_true_2 by (cbn; discriminate).
    unfold with_users. cbn. rewrite insert_insert_eq. reflexivity.
  - exact Hd2.
  - cbn. apply lookup_insert_eq.
Qed.

Lemma refresh_mismatch_revokes_all_witness :
  routes_auth.refresh_token fixtures.auth0 3000 fixtures.refresh0
    (snd (routes_auth.refresh_token fixtures.auth0 2000 fixtures.stale
            fixtures.world1))
  = (Raise (HTTPException 401 "Invalid refresh token" []),
     snd (routes_auth.refresh_token fixtures.auth0 2000 fixtures.stale
            fixtures.world1)).
Proof.
  apply (refresh_mismatch_revokes_all fixtures.auth0 2000 fixtures.stale
           fixtures.alice1 fixtures.world1).
  - vm_compute. reflexivity.
  - vm_compute. reflexivity.
  - apply (bool_decide_unpack _). vm_compute. exact I.
  - vm_compute. reflexivity.
Defined.

(** X9: the access token the refresh route returns does not authenticate:
    it is issued for the claim "email" and has no "sub", so until it
    expires get_current_user raises KeyError('sub') on it, an internal
    failure, whatever the state. *)
Theorem refreshed_access_token_unusable auth now tok u w t w2 :
  decode_refresh_token auth tok now = Return (VStr (models.email u)) ->
  users w !! models.email u = Some u ->
  models.refresh_token u = Some tok ->
  (t <= now + 150 * 60)%Z ->
  exists tokens w1,
    routes_auth.refresh_token auth now tok w = (Return tokens, w1) /\
    get_current_user auth (schemas.access_token tokens) t w2
    = (Raise (KeyError "sub"), w2).
Proof.
  intros Hd Hu Hst Hle. eexists _, _.
  rewrite (refresh_token_found auth now tok u w) by assumption.
  rewrite bool_decide_eq_false_2 by congruence.
  split; [reflexivity|]. cbn [schemas.access_token].
  unfold get_current_user, subscript. run.
  rewrite (access_token_decodes auth _ None now t) by (cbn; exact Hle).
  cbn. rewrite access_claims_scope. cbn. rewrite access_claims_sub.
  rewrite lookup_singleton_ne by discriminate. reflexivity.
Qed.

Lemma refreshed_access_token_unusable_witness :
  exists tokens w1,
    routes_auth.refresh_token fixtures.auth0 2000 fixtures.refresh0
      fixtures.world1 = (Return tokens, w1) /\
    get_current_user fixtures.auth0 (schemas.access_token tokens) 2500 w1
    = (Raise (KeyError "sub"), w1).
Proof.
  destruct (refreshed_access_token_unusable fixtures.auth0 2000
              fixtures.refresh0 fixtures.alice1 fixtures.world1 2500
              (snd (routes_auth.refresh_token fixtures.auth0 2000
                      fixtures.refresh0 fixtures.world1)))
    as (tokens & w1 & Hr & Hg); try (vm_compute; reflexivity); [lia|].
  exists tokens, w1. split; [exact Hr|].
  rewrite Hr in Hg. exact Hg.
Defined.

(** ** Signup *)

Lemma signup_new base_url get_password_hash default_role body w :
  users w !! schemas.email body = None ->
  routes_auth.signup base_url get_password_hash default_role body w
  = let new_user :=
      models.mkUser (schemas.email body) (schemas.username body)
        (get_password_hash (schemas.password body)) false default_role None in
    (Return (new_user,
             "User successfully created. Check your email for confirmation."),
     mkWorld (<[schemas.email body := new_user]> (users w))
             (background_tasks w
              ++ [(schemas.email body, schemas.username body, base_url)])
             (stdout w)).
Proof.
  intros Hu. unfold routes_auth.signup, repository_users.create_user. run.
  rewrite Hu. reflexivity.
Qed.

(** X10: signup refuses an e-mail that has a record with 409 "Account
    already exists" and changes nothing. For a new e-mail it stores a
    record with the digest of the password (not the password), not
    confirmed and without refresh token, leaves every other record alone,
    queues one confirmation e-mail and returns the record; a second signup
    with the same e-mail, whatever the name and password, is then refused
    and changes nothing. *)
Theorem signup_once base_url get_password_hash default_role body w :
  (forall u, users w !! schemas.email body = Some u ->
     routes_auth.signup base_url get_password_hash default_role body w
     = (Raise (HTTPException 409 "Account already exists" []), w)) /\
  (users w !! schemas.email body = None ->
   exists new_user w1,
     routes_auth.signup base_url get_password_hash default_role body w
     = (Return (new_user,
                "User successfully created. Check your email for confirmation."),
        w1) /\
     new_user = models.mkUser (schemas.email body) (schemas.username body)
                  (get_password_hash (schemas.password body))
                  false default_role None /\
     users w1 !! schemas.email body = Some new_user /\
     (forall e, e <> schemas.email body -> users w1 !! e = users w !! e) /\
     background_tasks w1
     = (background_tasks w
        ++ [(schemas.email body, schemas.username body, base_url)])%list /\
     (forall username2 password2,
        routes_auth.signup base_url get_password_hash default_role
          (schemas.mkUserModel username2 (schemas.email body) password2) w1
        = (Raise (HTTPException 409 "Account already exists" []), w1))).
Proof.
  split.
  - intros u Hu. unfold routes_auth.signup. run. rewrite Hu. reflexivity.
  - intros Hu. eexists _, _. split; [apply (signup_new _ _ _ _ _ Hu)|].
    cbn [users background_tasks]. repeat split.
    + apply lookup_insert_eq.
    + intros e He. apply lookup_insert_ne. congruence.
    + intros username2 password2. unfold routes_auth.signup. run. cbn.
      rewrite lookup_insert_eq. reflexivity.
Qed.

Lemma signup_once_witness :
  exists new_user w1,
    routes_auth.signup "http://localhost/" fixtures.hash0 models.user
      fixtures.carol_body fixtures.world0
    = (Return (new_user,
               "User successfully created. Check your email for confirmation."),
       w1) /\
    models.password new_user = "$2b$pw3" /\
    routes_auth.signup "http://localhost/" fixtures.hash0 models.user
      (schemas.mkUserModel "carol2" "carol@x.com" "other") w1
    = (Raise (HTTPException 409 "Account already exists" []), w1).
Proof.
  destruct (proj2 (signup_once "http://localhost/" fixtures.hash0 models.user
                     fixtures.carol_body fixtures.world0))
    as (new_user & w1 & Hs & Hn & _ & _ & _ & Hagain);
    [vm_compute; reflexivity|].
  exists new_user, w1. split; [exact Hs | split].
  - rewrite Hn. reflexivity.
  - apply (Hagain "carol2" "other").
Defined.

(** X11: from signup to the first session. For a new e-mail and a password
    context whose verify accepts the digest of the password: after signup,
    login with the right password fails with 401 "Email not confirmed" and
    changes nothing; confirming with the token create_email_token makes for
    the e-mail, within 7 days of its creation, returns "Email confirmed";
    and login then succeeds and stores the refresh token it returns. *)
Theorem signup_confirm_login auth base_url get_password_hash default_role
        body w t0 t1 t2 t3 :
  users w !! schemas.email body = None ->
  verify_password auth (schemas.password body)
    (get_password_hash (schemas.password body)) = true ->
  (t2 <= t1 + 7 * 86400)%Z ->
  let email := schemas.email body in
  let w1 :=
    snd (routes_auth.signup base_url get_password_hash default_role body w) in
  let confirmation := create_email_token auth {["sub" := VStr email]} t1 in
  let w2 := snd (routes_auth.confirmed_email auth t2 confirmation w1) in
  routes_auth.login auth t0 email (schemas.password body) w1
  = (Raise (HTTPException 401 "Email not confirmed" []), w1) /\
  fst (routes_auth.confirmed_email auth t2 confirmation w1)
  = Return {["message" := VStr "Email confirmed"]} /\
  exists tokens w3,
    routes_auth.login auth t3 email (schemas.password body) w2
    = (Return tokens, w3) /\
    models.refresh_token <$> users w3 !! email
    = Some (Some (schemas.refresh_token tokens)) /\
    models.confirmed <$> users w3 !! email = Some true.
Proof.
  intros Hu Hv Hle email w1 confirmation w2.
  set (new_user := models.mkUser email (schemas.username body)
                     (get_password_hash (schemas.password body))
                     false default_role None).
  assert (Hw1 : users w1 !! email = Some new_user).
  { subst w1. rewrite (signup_new _ _ _ _ _ Hu). cbn. apply lookup_insert_eq. }
  assert (Hc : routes_auth.confirmed_email auth t2 confirmation w1
               = (Return {["message" := VStr "Email confirmed"]},
                  with_users w1 (<[email := models.set_confirmed new_user]>
                                   (users w1)))).
  { rewrite (confirmed_email_decoded auth t2 confirmation
               (<["exp" := VInt (t1 + 7 * 86400)]>
                  (<["iat" := VInt t1]> {["sub" := VStr email]})) email).
    - rewrite Hw1. reflexivity.
    - apply email_token_decodes, Hle.
    - by simplify_map_eq. }
  split; [|split].
  - unfold routes_auth.login. run. rewrite Hw1. reflexivity.
  - rewrite Hc. reflexivity.
  - subst w2. rewrite Hc. cbn [snd]. eexists _, _. split.
    + apply (login_success auth t3 email (schemas.password body)
               (models.set_confirmed new_user)).
      * cbn. apply lookup_insert_eq.
      * reflexivity.
      * exact Hv.
    + cbn. rewrite lookup_insert_eq. split; reflexivity.
Qed.

Lemma signup_confirm_login_witness :
  let w1 :=
    snd (routes_auth.signup "http://localhost/" fixtures.hash0 models.user
           fixtures.carol_body fixtures.world0) in
  let confirmation :=
    create_email_token fixtures.auth0 {["sub" := VStr "carol@x.com"]} 100 in
  let w2 := snd (routes_auth.confirmed_email fixtures.auth0 200 confirmation w1) in
  routes_auth.login fixtures.auth0 150 "carol@x.com" "pw3" w1
  = (Raise (HTTPException 401 "Email not confirmed" []), w1) /\
  is_Some (users w2 !! "carol@x.com").
Proof.
  intros w1 confirmation w2.
  destruct (signup_confirm_login fixtures.auth0 "http://localhost/"
              fixtures.hash0 models.user fixtures.carol_body fixtures.world0
              150 100 200 300) as (H1 & _ & _);
    try (vm_compute; reflexivity); [vm_compute; discriminate|].
  split; [exact H1 | vm_compute; eauto].
Defined.

(** ** Accounts are kept *)

Lemma same_account_refl u : same_account u u.
Proof. repeat split; auto. Qed.

Lemma same_accounts_users w w' :
  users w' = users w -> same_accounts w w' /\ (keyed_by_email w -> keyed_by_email w').
Proof.
  intros Hu. split.
  - intros e. rewrite Hu. destruct (users w !! e); constructor.
    apply same_account_refl.
  - unfold keyed_by_email. rewrite Hu. auto.
Qed.

Lemma same_accounts_insert w w' u u' :
  users w !! models.email u = Some u ->
  same_account u u' ->
  users w' = <[models.email u := u']> (users w) ->
  same_accounts w w' /\ (keyed_by_email w -> keyed_by_email w').
Proof.
  intros Hu Hs Hw. split.
  - intros e. rewrite Hw. destruct (decide (e = models.email u)) as [-> | Hne].
    + rewrite lookup_insert_eq, Hu. constructor. exact Hs.
    + rewrite lookup_insert_ne by congruence.
      destruct (users w !! e); constructor. apply same_account_refl.
  - intros Hk e v. rewrite Hw.
    destruct (decide (e = models.email u)) as [-> | Hne].
    + rewrite lookup_insert_eq. intros [= <-]. apply Hs.
    + rewrite lookup_insert_ne by congruence. apply Hk.
Qed.

(** X12: login, refresh, e-mail confirmation and the request of a
    confirmation e-mail keep the accounts. On a users table whose records
    are stored under their own e-mail, whatever the request and whether it
    succeeds or fails, the table afterwards has a record for exactly the
    same e-mails, each with the e-mail, name, password digest and role it
    had and still confirmed if it was, and the records are still stored
    under their own e-mail. *)
Theorem auth_routes_keep_accounts auth now base_url w :
  keyed_by_email w ->
  (forall username password,
     let w' := snd (routes_auth.login auth now username password w) in
     same_accounts w w' /\ keyed_by_email w') /\
  (forall tok,
     let w' := snd (routes_auth.refresh_token auth now tok w) in
     same_accounts w w' /\ keyed_by_email w') /\
  (forall tok,
     let w' := snd (routes_auth.confirmed_email auth now tok w) in
     same_accounts w w' /\ keyed_by_email w') /\
  (forall email,
     let w' := snd (routes_auth.request_email base_url email w) in
     same_accounts w w' /\ keyed_by_email w').
Proof.
  intros Hk.
  assert (Hsame : forall w', users w' = users w ->
                    same_accounts w w' /\ keyed_by_email w').
  { intros w' Hu. destruct (same_accounts_users w w' Hu). auto. }
  assert (Hins : forall w' u u',
            users w !! models.email u = Some u -> same_account u u' ->
            users w' = <[models.email u := u']> (users w) ->
            same_accounts w w' /\ keyed_by_email w').
  { intros w' u u' Hu Hs Hw.
    destruct (same_accounts_insert w w' u u' Hu Hs Hw). auto. }
  split; [|split; [|split]].
  - intros username password w'. subst w'. unfold routes_auth.login. run.
    destruct (users w !! username) as [u|] eqn:Hu; [|apply Hsame; reflexivity].
    destruct (models.confirmed u); cbn; [|apply Hsame; reflexivity].
    destruct (verify_password auth password (models.password u)); cbn;
      [|apply Hsame; reflexivity].
    pose proof (Hk _ _ Hu) as He. rewrite <- He in Hu.
    eapply (Hins _ u); only 3: reflexivity; [exact Hu | repeat split; auto].
  - intros tok w'. subst w'. unfold routes_auth.refresh_token. run.
    destruct (decode_refresh_token auth tok now) as [email | e];
      [|apply Hsame; reflexivity].
    destruct email as [s | n |]; try (apply Hsame; reflexivity).
    destruct (users w !! s) as [u|] eqn:Hu; cbn; [|apply Hsame; reflexivity].
    pose proof (Hk _ _ Hu) as He. rewrite <- He in Hu.
    destruct (bool_decide (models.refresh_token u ≠ Some tok)); cbn;
      (eapply (Hins _ u); only 3: reflexivity;
       [exact Hu | repeat split; auto]).
  - intros tok w'. subst w'.
    unfold routes_auth.confirmed_email, get_email_from_token. run.
    destruct (obind _ _) as [email | e]; cbn.
    + destruct email as [s | n |]; try (apply Hsame; reflexivity).
      destruct (users w !! s) as [u|] eqn:Hu; cbn; [|apply Hsame; reflexivity].
      destruct (models.confirmed u) eqn:Hc; cbn; [apply Hsame; reflexivity|].
      rewrite Hu. cbn.
      pose proof (Hk _ _ Hu) as He. rewrite <- He in Hu.
      apply (Hins _ u (models.set_confirmed u)); try assumption; try reflexivity.
      repeat split; auto.
    + destruct (is_JWTError e); cbn; apply Hsame; reflexivity.
  - intros email w'. subst w'. unfold routes_auth.request_email. run.
    destruct (users w !! email) as [u|] eqn:Hu; cbn; [|apply Hsame; reflexivity].
    destruct (models.confirmed u); cbn; apply Hsame; reflexivity.
Qed.

Lemma auth_routes_keep_accounts_witness :
  same_accounts fixtures.world0
    (snd (routes_auth.login fixtures.auth0 1000 "alice@x.com" "pw"
            fixtures.world0)) /\
  keyed_by_email
    (snd (routes_auth.confirmed_email fixtures.auth0 1000 fixtures.confirm_bob
            fixtures.world0)).
Proof.
  assert (Hk : keyed_by_email fixtures.world0).
  { intros e u H. cbn in H.
    apply lookup_insert_Some in H as [[<- <-] | [_ H]]; [reflexivity|].
    apply lookup_insert_Some in H as [[<- <-] | [_ H]]; [reflexivity|].
    rewrite lookup_empty in H. discriminate. }
  destruct (auth_routes_keep_accounts fixtures.auth0 1000 "http://localhost/"
              fixtures.world0 Hk) as (Hlogin & _ & Hconfirm & _).
  split.
  - apply (Hlogin "alice@x.com" "pw").
  - apply (Hconfirm fixtures.confirm_bob).
Defined.

(** ** The role gate on a request *)

Lemma get_current_user_reads_only auth tok now w :
  snd (get_current_user auth tok now w) = w.
Proof.
  unfold get_current_user. run.
  destruct (except_JWTError _ _) as [email | e]; [|reflexivity].
  destruct email as [s | n |]; try reflexivity.
  destruct (users w !! s); reflexivity.
Qed.

Lemma get_current_user_returns auth tok now w u :
  fst (get_current_user auth tok now w) = Return u ->
  exists s, users w !! s = Some u.
Proof.
  unfold get_current_user. run.
  destruct (except_JWTError _ _) as [email | e]; [|discriminate].
  destruct email as [s | n |]; try discriminate.
  destruct (users w !! s) as [v|] eqn:Hs; [|discriminate].
  intros [= <-]. eauto.
Qed.

(** X13: the gate lets a request through only for an authenticated user
    with an allowed role. If it returns, get_current_user returned a user
    of the table whose role is among the allowed roles; if get_current_user
    raises, the gate raises the same exception and prints nothing, so a bad
    token gives 401 and not 403; a gate with no allowed role lets nobody
    through; and in every case the users table and the queued e-mails are
    unchanged. *)
Theorem gate_sound auth (self : services_roles.RoleAccess) tok now w :
  (fst (services_roles.gate auth self tok now w) = Return tt ->
   exists u s,
     get_current_user auth tok now w = (Return u, w) /\
     users w !! s = Some u /\
     models.role u ∈ services_roles.allowed_roles self) /\
  (forall e, get_current_user auth tok now w = (Raise e, w) ->
     services_roles.gate auth self tok now w = (Raise e, w)) /\
  (services_roles.allowed_roles self = [] ->
   fst (services_roles.gate auth self tok now w) <> Return tt) /\
  users (snd (services_roles.gate auth self tok now w)) = users w /\
  background_tasks (snd (services_roles.gate auth self tok now w))
  = background_tasks w.
Proof.
  pose proof (get_current_user_reads_only auth tok now w) as Hw.
  pose proof (get_current_user_returns auth tok now w) as Hr.
  unfold services_roles.gate, services_roles.__call__. run.
  destruct (get_current_user auth tok now w) as [[u | e] w0] eqn:Hg;
    cbn in Hw; subst w0; cbn.
  - destruct (Hr u eq_refl) as [s Hs].
    case_bool_decide as Hin; cbn;
      (split; [|split; [|split; [|split; reflexivity]]]).
    + discriminate.
    + intros e [=].
    + discriminate.
    + intros _. exists u, s. repeat split; [exact Hs | exact Hin].
    + intros e [=].
    + intros Hnil _. rewrite Hnil in Hin. by apply not_elem_of_nil in Hin.
  - split; [|split; [|split; [|split; reflexivity]]].
    + discriminate.
    + intros e' [= <-]. reflexivity.
    + discriminate.
Qed.

Lemma gate_sound_witness :
  services_roles.gate fixtures.auth0 (services_roles.mkRoleAccess [models.admin])
    fixtures.refresh0 2000 fixtures.world1
  = (Raise credentials_exception, fixtures.world1).
Proof.
  apply (proj1 (proj2 (gate_sound fixtures.auth0
                         (services_roles.mkRoleAccess [models.admin])
                         fixtures.refresh0 2000 fixtures.world1))).
  vm_compute. reflexivity.
Defined.

(** ** The tags of a user *)

Section ListFind.
Context {A : Type} (P Q : A -> Prop)
        `{!forall x, Decision (P x)} `{!forall x, Decision (Q x)}.

Lemma find_insert_found (l : list A) i x y :
  list_find P l = Some (i, x) -> P y ->
  list_find P (<[i := y]> l) = Some (i, y).
Proof.
  intros (Hi & _ & Hbefore)%list_find_Some Hy. apply list_find_Some.
  split; [|split; [exact Hy|]].
  - apply list_lookup_insert_eq. eapply lookup_lt_Some, Hi.
  - intros j z Hj Hlt. rewrite list_lookup_insert_ne in Hj by lia.
    eapply Hbefore; eassumption.
Qed.

Lemma find_insert_elsewhere (l : list A) i x y :
  l !! i = Some x -> ~ Q x -> ~ Q y ->
  snd <$> list_find Q (<[i := y]> l) = snd <$> list_find Q l.
Proof.
  revert i. induction l as [|a l IH]; intros [|i] Hi Hx Hy;
    try discriminate; cbn in *.
  - injection Hi as ->. rewrite !decide_False by assumption. reflexivity.
  - destruct (decide (Q a)); [reflexivity|].
    rewrite <- !option_fmap_compose.
    apply (IH i Hi Hx Hy).
Qed.

Lemma find_delete_elsewhere (l : list A) i x :
  l !! i = Some x -> ~ Q x ->
  snd <$> list_find Q (delete i l) = snd <$> list_find Q l.
Proof.
  revert i. induction l as [|a l IH]; intros [|i] Hi Hx;
    try discriminate; cbn in *.
  - injection Hi as ->. rewrite decide_False by assumption.
    rewrite <- option_fmap_compose. reflexivity.
  - destruct (decide (Q a)); [reflexivity|].
    rewrite <- !option_fmap_compose.
    apply (IH i Hi Hx).
Qed.

Lemma find_delete_found (l : list A) i x :
  list_find P l = Some (i, x) ->
  (forall j y, l !! j = Some y -> P y -> j = i) ->
  list_find P (delete i l) = None.
Proof.
  intros (Hi & _ & _)%list_find_Some Huniq.
  apply list_find_None, Forall_lookup. intros j y Hj Hy.
  destruct (decide (j < i)%nat) as [Hlt | Hge].
  - rewrite list_lookup_delete_lt in Hj by lia.
    pose proof (Huniq j y Hj Hy). lia.
  - rewrite list_lookup_delete_ge in Hj by lia.
    pose proof (Huniq (S j) y Hj Hy). lia.
Qed.

End ListFind.

Import repository_tags.

(** X14: a user reaches their own tags only. A tag get_tag returns is a
    row of the table with the id asked for and the user as owner; get_tag
    returns None exactly when no row with this id is owned by the user; and
    then update_tag and remove_tag return None too and leave the table as
    it is, so the tag of another user can be neither read, renamed nor
    removed. *)
Theorem tags_are_private (User_id : models.User -> Z) tag_id body user db :
  (forall t, get_tag User_id tag_id user db = Some t ->
     t ∈ tags db /\ id t = tag_id /\ user_id t = User_id user) /\
  (get_tag User_id tag_id user db = None <->
   forall t, t ∈ tags db -> id t = tag_id -> user_id t <> User_id user) /\
  (get_tag User_id tag_id user db = None ->
   update_tag User_id tag_id body user db = (None, db) /\
   remove_tag User_id tag_id user db = (None, db)).
Proof.
  unfold get_tag, update_tag, remove_tag. split; [|split].
  - intros t Ht.
    destruct (list_find _ _) as [[i t']|] eqn:Hf; [|discriminate].
    injection Ht as ->.
    apply list_find_Some in Hf as (Hi & [Hid Hown] & _).
    split; [|split; assumption]. eapply list_elem_of_lookup_2, Hi.
  - rewrite fmap_None, list_find_None, Forall_forall.
    unfold owned_with_id. split.
    + intros H t Ht Hid Hown. apply (H t Ht). split; assumption.
    + intros H t Ht [Hid Hown]. apply (H t Ht Hid Hown).
  - rewrite fmap_None. intros ->. split; reflexivity.
Qed.

Lemma tags_are_private_witness :
  get_tag fixtures.id0 2 fixtures.alice fixtures.tags0 = None /\
  update_tag fixtures.id0 2 (TagModel.mk "mine") fixtures.alice fixtures.tags0
  = (None, fixtures.tags0) /\
  remove_tag fixtures.id0 2 fixtures.alice fixtures.tags0
  = (None, fixtures.tags0).
Proof.
  assert (H : get_tag fixtures.id0 2 fixtures.alice fixtures.tags0 = None)
    by (vm_compute; reflexivity).
  split; [exact H|].
  apply (proj2 (proj2 (tags_are_private fixtures.id0 2 (TagModel.mk "mine")
                         fixtures.alice fixtures.tags0)) H).
Defined.

Lemma tags_wf_unique db i j x y :
  tags_wf db -> tags db !! i = Some x -> tags db !! j = Some y ->
  id x = id y -> i = j.
Proof.
  intros [Hnd _] Hi Hj Heq.
  apply (NoDup_lookup (id <$> tags db) i j (id x)); [exact Hnd|..].
  - rewrite list_lookup_fmap, Hi. reflexivity.
  - rewrite list_lookup_fmap, Hj, Heq. reflexivity.
Qed.

(** X15: create_tag gives the new tag the next value of the sequence. On a
    table whose ids are distinct and below the sequence, the tag it returns
    has an id no row had, the name of the body and the user as owner; it is
    what get_tag then finds under this id; every tag that could be found
    before is still found; and the ids are still distinct and below the
    sequence. *)
Theorem create_tag_fresh (User_id : models.User -> Z) body user db :
  tags_wf db ->
  let tag := fst (create_tag User_id body user db) in
  let db' := snd (create_tag User_id body user db) in
  (id tag ∉ (id <$> tags db)) /\
  name tag = TagModel.name body /\
  user_id tag = User_id user /\
  get_tag User_id (id tag) user db' = Some tag /\
  (forall tag_id' user' t,
     get_tag User_id tag_id' user' db = Some t ->
     get_tag User_id tag_id' user' db' = Some t) /\
  tags_wf db'.
Proof.
  intros [Hnd Hlt] tag db'. subst tag db'. cbn.
  assert (Hfresh : tag_id_seq db ∉ (id <$> tags db)).
  { intros (t & Ht & Hin)%list_elem_of_fmap.
    rewrite Forall_forall in Hlt. specialize (Hlt t Hin). lia. }
  split; [exact Hfresh|]. split; [reflexivity|]. split; [reflexivity|].
  split; [|split].
  - unfold get_tag. cbn. rewrite list_find_app_r.
    + cbn. rewrite decide_True by (split; reflexivity). reflexivity.
    + apply list_find_None, Forall_forall. intros t Hin [Hid _].
      apply Hfresh, list_elem_of_fmap. exists t. auto.
  - intros tag_id' user' t. unfold get_tag. cbn.
    destruct (list_find _ (tags db)) as [[i t']|] eqn:Hf; [|discriminate].
    intros [= <-]. rewrite (list_find_app_l _ _ _ _ _ Hf). reflexivity.
  - split; cbn.
    + rewrite fmap_app. apply NoDup_app. split; [exact Hnd|]. split.
      * intros x Hx ->%list_elem_of_singleton. exact (Hfresh Hx).
      * apply NoDup_singleton.
    + apply Forall_app. split.
      * eapply Forall_impl; [exact Hlt|]. cbn. intros. lia.
      * apply Forall_singleton. cbn. lia.
Qed.

Lemma tags0_wf : tags_wf fixtures.tags0.
Proof.
  split.
  - apply (bool_decide_unpack _). vm_compute. exact I.
  - cbn. repeat constructor.
Qed.

Lemma create_tag_fresh_witness :
  let tag := fst (create_tag fixtures.id0 (TagModel.mk "new") fixtures.bob
                    fixtures.tags0) in
  let db' := snd (create_tag fixtures.id0 (TagModel.mk "new") fixtures.bob
                    fixtures.tags0) in
  id tag = 4%Z /\
  get_tag fixtures.id0 4 fixtures.bob db' = Some tag /\
  tags_wf db'.
Proof.
  intros tag db'.
  destruct (create_tag_fresh fixtures.id0 (TagModel.mk "new") fixtures.bob
              fixtures.tags0 tags0_wf) as (_ & _ & _ & Hget & _ & Hwf).
  split; [reflexivity | split; [exact Hget | exact Hwf]].
Defined.

(** X16: update_tag renames the tag and nothing else. When the user owns a
    tag with this id, update_tag returns it with the name of the body and
    the same id and owner, get_tag then finds the renamed tag, the tags
    under every other id are found as before, the table has as many rows,
    and distinct ids below the sequence stay so. *)
Theorem update_tag_renames (User_id : models.User -> Z) tag_id body user db t :
  get_tag User_id tag_id user db = Some t ->
  let t' := mkTag (id t) (TagModel.name body) (user_id t) in
  let db' := snd (update_tag User_id tag_id body user db) in
  fst (update_tag User_id tag_id body user db) = Some t' /\
  get_tag User_id tag_id user db' = Some t' /\
  (forall tag_id' user', tag_id' <> tag_id ->
     get_tag User_id tag_id' user' db' = get_tag User_id tag_id' user' db) /\
  length (tags db') = length (tags db) /\
  (tags_wf db -> tags_wf db').
Proof.
  unfold get_tag, update_tag. intros Ht.
  destruct (list_find _ _) as [[i t0]|] eqn:Hf; [|discriminate].
  injection Ht as ->. cbn.
  pose proof Hf as (Hi & [Hid Hown] & _)%list_find_Some.
  split; [reflexivity|]. split; [|split; [|split]].
  - rewrite (find_insert_found _ _ _ _ _ Hf); [reflexivity|].
    split; assumption.
  - intros tag_id' user' Hne.
    apply (find_insert_elsewhere _ _ _ _ _ Hi); unfold owned_with_id; cbn;
      intros [? _]; congruence.
  - apply length_insert.
  - intros [Hnd Hlt]. split; cbn.
    + rewrite list_fmap_insert. cbn. rewrite list_insert_id; [exact Hnd|].
      rewrite list_lookup_fmap, Hi. reflexivity.
    + apply Forall_insert; [exact Hlt|]. cbn.
      rewrite Forall_lookup in Hlt. apply (Hlt _ _ Hi).
Qed.

Lemma update_tag_renames_witness :
  fst (update_tag fixtures.id0 3 (TagModel.mk "other") fixtures.alice
         fixtures.tags0)
  = Some (mkTag 3 "other" 1) /\
  get_tag fixtures.id0 3 fixtures.alice
    (snd (update_tag fixtures.id0 3 (TagModel.mk "other") fixtures.alice
            fixtures.tags0))
  = Some (mkTag 3 "other" 1).
Proof.
  destruct (update_tag_renames fixtures.id0 3 (TagModel.mk "other")
              fixtures.alice fixtures.tags0 (mkTag 3 "misc" 1))
    as (H1 & H2 & _); [vm_compute; reflexivity|].
  split; [exact H1 | exact H2].
Defined.

(** X17: remove_tag removes the tag and nothing else. On a table with
    distinct ids, when the user owns a tag with this id, remove_tag returns
    it, get_tag then finds nothing under this id, a second remove_tag
    returns None and changes nothing, the tags under every other id are
    found as before, the table has one row less, and the ids stay distinct
    and below the sequence. *)
Theorem remove_tag_removes (User_id : models.User -> Z) tag_id user db t :
  tags_wf db ->
  get_tag User_id tag_id user db = Some t ->
  let db' := snd (remove_tag User_id tag_id user db) in
  fst (remove_tag User_id tag_id user db) = Some t /\
  get_tag User_id tag_id user db' = None /\
  remove_tag User_id tag_id user db' = (None, db') /\
  (forall tag_id' user', tag_id' <> tag_id ->
     get_tag User_id tag_id' user' db' = get_tag User_id tag_id' user' db) /\
  S (length (tags db')) = length (tags db) /\
  tags_wf db'.
Proof.
  intros Hwf. unfold get_tag, remove_tag. intros Ht.
  destruct (list_find _ (tags db)) as [[i t0]|] eqn:Hf; [|discriminate].
  injection Ht as ->. cbn.
  pose proof Hf as (Hi & [Hid Hown] & _)%list_find_Some.
  assert (Hnone : list_find (owned_with_id User_id tag_id user)
                    (delete i (tags db)) = None).
  { apply (find_delete_found _ _ _ _ Hf). intros j y Hj [Hy _].
    apply (tags_wf_unique db j i y t Hwf Hj Hi). congruence. }
  split; [reflexivity|]. split; [|split; [|split; [|split]]].
  - rewrite Hnone. reflexivity.
  - rewrite Hnone. reflexivity.
  - intros tag_id' user' Hne.
    apply (find_delete_elsewhere _ _ _ _ Hi). intros [? _]. congruence.
  - rewrite length_delete by (rewrite Hi; eauto).
    apply lookup_lt_Some in Hi. lia.
  - destruct Hwf as [Hnd Hlt]. split; cbn.
    + rewrite <- (take_drop_middle _ _ _ Hi) in Hnd.
      rewrite delete_take_drop.
      rewrite fmap_app in *. rewrite fmap_cons in Hnd.
      apply NoDup_app in Hnd as (H1 & H2 & H3).
      apply NoDup_cons in H3 as [_ H3].
      apply NoDup_app. split; [exact H1|]. split; [|exact H3].
      intros x Hx Hx'. apply (H2 x Hx). right. exact Hx'.
    + apply Forall_delete. exact Hlt.
Qed.

Lemma remove_tag_removes_witness :
  fst (remove_tag fixtures.id0 1 fixtures.alice fixtures.tags0)
  = Some (mkTag 1 "work" 1) /\
  get_tag fixtures.id0 1 fixtures.alice
    (snd (remove_tag fixtures.id0 1 fixtures.alice fixtures.tags0))
  = None.
Proof.
  destruct (remove_tag_removes fixtures.id0 1 fixtures.alice fixtures.tags0
              (mkTag 1 "work" 1) tags0_wf)
    as (H1 & H2 & _); [vm_compute; reflexivity|].
  split; [exact H1 | exact H2].
Defined.

(** X18: get_tags pages through the tags of the user. For a non-negative
    skip and limit, it returns rows of the table owned by the user, at most
    limit of them; the page that starts where a page ends continues it, so
    that the two together are the one page of both limits; a skip of at
    least the number of the user's tags gives the empty list; and skip 0
    with a limit of at least that number gives all the user's tags, in the
    order of the table. *)
Theorem get_tags_pages (User_id : models.User -> Z) skip limit user db :
  (0 <= skip)%Z -> (0 <= limit)%Z ->
  let mine := filter (fun t => user_id t = User_id user) (tags db) in
  (forall t, t ∈ get_tags User_id skip limit user db ->
     t ∈ tags db /\ user_id t = User_id user) /\
  (Z.of_nat (length (get_tags User_id skip limit user db)) <= limit)%Z /\
  (forall limit2, (0 <= limit2)%Z ->
     (get_tags User_id skip limit user db
      ++ get_tags User_id (skip + limit) limit2 user db)%list
     = get_tags User_id skip (limit + limit2) user db) /\
  ((Z.of_nat (length mine) <= skip)%Z ->
   get_tags User_id skip limit user db = []) /\
  ((Z.of_nat (length mine) <= limit)%Z ->
   get_tags User_id 0 limit user db = mine).
Proof.
  intros Hs Hl mine. unfold get_tags. fold mine.
  split; [|split; [|split; [|split]]].
  - intros t Ht.
    apply subseteq_take, subseteq_drop in Ht.
    apply list_elem_of_filter in Ht as [Hown Hin]. auto.
  - rewrite length_take. lia.
  - intros limit2 Hl2.
    rewrite !Z2Nat.inj_add by lia.
    rewrite <- (drop_drop mine (Z.to_nat limit) (Z.to_nat skip)).
    apply take_take_drop.
  - intros Hge. rewrite drop_ge by lia. apply take_nil.
  - intros Hge. cbn. apply take_ge. lia.
Qed.

Lemma get_tags_pages_witness :
  (get_tags fixtures.id0 0 1 fixtures.alice fixtures.tags0
   ++ get_tags fixtures.id0 (0 + 1) 5 fixtures.alice fixtures.tags0)%list
  = get_tags fixtures.id0 0 (1 + 5) fixtures.alice fixtures.tags0 /\
  get_tags fixtures.id0 2 10 fixtures.alice fixtures.tags0 = [].
Proof.
  destruct (get_tags_pages fixtures.id0 0 1 fixtures.alice fixtures.tags0)
    as (_ & _ & Hcat & _); [lia | lia |].
  destruct (get_tags_pages fixtures.id0 2 10 fixtures.alice fixtures.tags0)
    as (_ & _ & _ & Hempty & _); [lia | lia |].
  split; [apply Hcat; lia | apply Hempty; vm_compute; discriminate].
Defined.

(** ** What an accepted token proves *)

Lemma decode_Return tok key alg now claims :
  jwt.decode tok key [alg] now = Return claims ->
  tok = Signed alg claims key /\
  (forall exp, claims !! "exp" = Some (VInt exp) -> (now <= exp)%Z).
Proof.
  unfold jwt.decode. destruct tok as [a c k | raw]; [|discriminate].
  destruct (bool_decide (a ∈ [alg])) eqn:Ha; [|discriminate].
  destruct (bool_decide (k = key)) eqn:Hk; [|discriminate]. cbn.
  apply bool_decide_eq_true_1, list_elem_of_singleton in Ha.
  apply bool_decide_eq_true_1 in Hk. subst a k.
  destruct (c !! "exp") as [[s | exp |] |] eqn:He.
  - intros [= <-]. split; [reflexivity|]. congruence.
  - destruct (Z.ltb_spec exp now); [discriminate|].
    intros [= <-]. split; [reflexivity|]. intros exp' Hexp.
    rewrite He in Hexp. injection Hexp as <-. assumption.
  - intros [= <-]. split; [reflexivity|]. congruence.
  - intros [= <-]. split; [reflexivity|]. congruence.
Qed.

(** X19: get_current_user returns a user only for a token that proves it.
    If it returns a record, the token was signed with the secret and the
    algorithm of the service, has not expired, has the scope access_token
    and a string subject, and the record is the one stored under that
    subject. *)
Theorem get_current_user_sound auth tok now w u :
  fst (get_current_user auth tok now w) = Return u ->
  exists claims email,
    tok = Signed (ALGORITHM auth) claims (SECRET_KEY auth) /\
    claims !! "scope" = Some (VStr "access_token") /\
    claims !! "sub" = Some (VStr email) /\
    users w !! email = Some u /\
    (forall exp, claims !! "exp" = Some (VInt exp) -> (now <= exp)%Z).
Proof.
  unfold get_current_user, subscript. run.
  destruct (jwt.decode tok (SECRET_KEY auth) [ALGORITHM auth] now)
    as [claims | e] eqn:Hd; cbn.
  - destruct (decode_Return _ _ _ _ _ Hd) as [-> Hexp].
    destruct (claims !! "scope") as [scope|] eqn:Hs; cbn; [|discriminate].
    case_bool_decide as Hscope; cbn; [subst scope|discriminate].
    destruct (claims !! "sub") as [sub|] eqn:Hsub; cbn; [|discriminate].
    case_bool_decide; cbn; [discriminate|].
    destruct sub as [s | n |]; cbn; try discriminate.
    destruct (users w !! s) as [v|] eqn:Hu; cbn; [|discriminate].
    intros [= <-]. exists claims, s. auto.
  - destruct e; cbn; discriminate.
Qed.

Lemma get_current_user_sound_witness :
  exists claims email,
    fixtures.access0
    = Signed "HS256" claims "s3cret" /\
    claims !! "scope" = Some (VStr "access_token") /\
    claims !! "sub" = Some (VStr email) /\
    users fixtures.world1 !! email = Some fixtures.alice1 /\
    (forall exp, claims !! "exp" = Some (VInt exp) -> (5000 <= exp)%Z).
Proof.
  apply (get_current_user_sound fixtures.auth0 fixtures.access0 5000
           fixtures.world1 fixtures.alice1).
  vm_compute. reflexivity.
Defined.

(** X20: the refresh route returns a pair only to the holder of the stored
    token. If it returns, the presented token was signed with the secret
    and the algorithm of the service, has not expired, has the scope
    refresh_token and a string subject, and is the refresh token stored in
    the record of that subject. *)
Theorem refresh_token_sound auth now tok w tokens :
  fst (routes_auth.refresh_token auth now tok w) = Return tokens ->
  exists claims email u,
    tok = Signed (ALGORITHM auth) claims (SECRET_KEY auth) /\
    claims !! "scope" = Some (VStr "refresh_token") /\
    claims !! "sub" = Some (VStr email) /\
    users w !! email = Some u /\
    models.refresh_token u = Some tok /\
    (forall exp, claims !! "exp" = Some (VInt exp) -> (now <= exp)%Z).
Proof.
  unfold routes_auth.refresh_token, decode_refresh_token, subscript. run.
  destruct (jwt.decode tok (SECRET_KEY auth) [ALGORITHM auth] now)
    as [claims | e] eqn:Hd; cbn.
  - destruct (decode_Return _ _ _ _ _ Hd) as [Htok Hexp].
    destruct (claims !! "scope") as [scope|] eqn:Hs; cbn; [|discriminate].
    case_bool_decide as Hscope; cbn; [subst scope|discriminate].
    destruct (claims !! "sub") as [sub|] eqn:Hsub; cbn; [|discriminate].
    destruct sub as [s | n |]; cbn; try discriminate.
    destruct (users w !! s) as [v|] eqn:Hu; cbn; [|discriminate].
    case_bool_decide as Hst; cbn; [discriminate|].
    intros _. exists claims, s, v. repeat split; auto.
  - destruct e; cbn; discriminate.
Qed.

Lemma refresh_token_sound_witness :
  exists claims email u,
    fixtures.refresh0 = Signed "HS256" claims "s3cret" /\
    claims !! "scope" = Some (VStr "refresh_token") /\
    claims !! "sub" = Some (VStr email) /\
    users fixtures.world1 !! email = Some u /\
    models.refresh_token u = Some fixtures.refresh0 /\
    (forall exp, claims !! "exp" = Some (VInt exp) -> (2000 <= exp)%Z).
Proof.
  apply (refresh_token_sound fixtures.auth0 2000 fixtures.refresh0
           fixtures.world1
           (schemas.mkTokenModel
              (create_access_token fixtures.auth0
                 {["email" := VStr "alice@x.com"]} None 2000)
              (create_refresh_token fixtures.auth0
                 {["email" := VStr "alice@x.com"]} None 2000)
              "bearer")).
  vm_compute. reflexivity.
Defined.
